(** * SkyMarshal computer-vision core: speed estimator, plate reader, frame processor

    A shallow embedding of [src/speed_estimator.py], [src/alpr.py] and
    [src/processor.py].

    Conventions of the embedding:
    - Python [int] is [Z]; Python and numpy floats are idealised as exact
      rationals [Q] (no rounding error, no NaN or infinity);
    - a Python [dict] keyed by track id is a [gmap Z _]; mutation of a dict
      entry in place is an [insert] at the same key;
    - a method that mutates [self] is a function from the old state to an
      [outcome]: the returned value (or the raised exception) together with
      the new state;
    - the collaborators the repository does not implement (the homography of
      OpenCV, the YOLO plate model, the EasyOCR reader, the drawing routines)
      are [Variable]s of the enclosing [Section]. *)

From Stdlib Require Import ZArith QArith Qround Qabs Ascii String Lia Lqa.
From stdpp Require Import gmap strings list.

Local Open Scope Z_scope.

(** ** Exceptions and outcomes *)

Inductive exn : Type :=
  | ZeroDivisionError
  | AttributeError.

Inductive outcome (A S : Type) : Type :=
  | Returned (value : A) (state : S)
  | Raised (e : exn) (state : S).

Arguments Returned {A S} value state.
Arguments Raised {A S} e state.

Definition state_of {A S : Type} (o : outcome A S) : S :=
  match o with
  | Returned _ s => s
  | Raised _ s => s
  end.

Definition value_of {A S : Type} (o : outcome A S) : option A :=
  match o with
  | Returned v _ => Some v
  | Raised _ _ => None
  end.

(** ** The Python builtins the code relies on *)

Module Py.

Definition Qltb (a b : Q) : bool := negb (Qle_bool b a).

(** [min(a, b)]: the first argument unless the second is strictly smaller. *)
Definition min (a b : Q) : Q := if Qltb b a then b else a.

(** [sum(l)]: left to right, starting from [0]. *)
Definition sum (l : list Q) : Q := fold_left Qplus l 0%Q.

(** Normalisation of one bound of a slice [l[lo:hi]] against [len(l) = n]:
    a negative bound counts from the end, and both are clipped to [0..n]. *)
Definition clip (n i : Z) : Z :=
  if i <? 0 then Z.max (i + n) 0 else Z.min i n.

(** The number of indices selected by [lo:hi] on a sequence of length [n]. *)
Definition slice_len (n lo hi : Z) : Z :=
  Z.max 0 (clip n hi - clip n lo).

(** [l[lo:hi]] *)
Definition slice {A : Type} (l : list A) (lo hi : Z) : list A :=
  let n := Z.of_nat (length l) in
  take (Z.to_nat (slice_len n lo hi)) (drop (Z.to_nat (clip n lo)) l).

(** [l[lo:]] *)
Definition slice_from {A : Type} (l : list A) (lo : Z) : list A :=
  drop (Z.to_nat (clip (Z.of_nat (length l)) lo)) l.

(** [sorted(l)] on numbers.  Python's sort is stable, and a stable sort is
    determined by its input; insertion from the right is one. *)
Fixpoint insert_sorted (x : Q) (l : list Q) : list Q :=
  match l with
  | [] => [x]
  | y :: l' => if Qle_bool x y then x :: y :: l' else y :: insert_sorted x l'
  end.

Definition sorted (l : list Q) : list Q := foldr insert_sorted [] l.

(** Rounding of a rational to the nearest integer, ties to even. *)
Definition rint (q : Q) : Z :=
  let f := Qfloor q in
  let r := (q - inject_Z f)%Q in
  if Qltb r (1 # 2) then f
  else if Qltb (1 # 2) r then f + 1
  else if Z.even f then f else f + 1.

(** [round(q, 1)]: one decimal place. *)
Definition round1 (q : Q) : Q := (inject_Z (rint (q * 10)) / 10)%Q.

End Py.

(** ** [src/speed_estimator.py] *)

Module SpeedEstimator.

Section Estimator.

(** Bird's-eye-view coordinates (a numpy vector of two metres values). *)
Variable GroundPos : Type.

(** [SpeedEstimator.get_real_world_pos]: [cv2.perspectiveTransform] with
    the matrix [self.M] computed once by the constructor. *)
Variable get_real_world_pos : Z * Z -> GroundPos.

(** [np.linalg.norm(a - b)] *)
Variable norm_diff : GroundPos -> GroundPos -> Q.

(** One value of [self.tracker_data]. *)
Record Track : Type := mkTrack {
  last_frame : Z;
  last_pos : GroundPos;
  speed_history : list Q;
  current_speed : Q;
  stable_frames : Z;
  hits : Z
}.

(** Lines 63-69: the instantaneous speed in km/h.  [frames_elapsed / fps]
    divides a Python int by the frame rate and raises on a zero rate. *)
Definition inst_speed_kmh
    (ground_pos : GroundPos) (data : Track) (frames_elapsed : Z) (fps : Q)
    : option Q :=
  let dist := norm_diff ground_pos (last_pos data) in
  if Qeq_bool fps 0 then None
  else
    let time_elapsed := (inject_Z frames_elapsed / fps)%Q in
    let speed_ms := (dist / time_elapsed)%Q in
    Some (speed_ms * (36 # 10))%Q.

(** Lines 78-83: the smoothed, clamped speed of a history. *)
Definition smoothed (history : list Q) : Q :=
  let sorted_history := Py.sorted history in
  let mid := Z.of_nat (length sorted_history) / 2 in
  let avg_speed :=
    if 15 <? Z.of_nat (length sorted_history)
    then (Py.sum (Py.slice sorted_history (mid - 5) (mid + 5)) / 10)%Q
    else (Py.sum sorted_history
            / inject_Z (Z.of_nat (length sorted_history)))%Q in
  Py.min (Py.round1 avg_speed) 160.

(** Lines 72-85: the body of the sanity-check branch. *)
Definition accept_sample
    (data : Track) (inst : Q) (frames_elapsed : Z) : Track :=
  let appended := speed_history data ++ [inst] in
  let history :=
    if 25 <? Z.of_nat (length appended) then tail appended else appended in
  {| last_frame := last_frame data;
     last_pos := last_pos data;
     speed_history := history;
     current_speed := smoothed history;
     stable_frames := stable_frames data + frames_elapsed;
     hits := hits data + 1 |}.

Definition plausible (inst : Q) : bool :=
  Py.Qltb 5 inst && Py.Qltb inst 220.

(** Lines 91-96: the grace period. *)
Definition gated (data : Track) : Q :=
  if (stable_frames data <? 15) || (hits data <? 8)
  then 0%Q else current_speed data.

Definition estimate_speed
    (track_id : Z) (current_pos : Z * Z) (current_frame : Z) (fps : Q)
    (tracker_data : gmap Z Track) : outcome Q (gmap Z Track) :=
  let ground_pos := get_real_world_pos current_pos in
  match tracker_data !! track_id with
  | None =>
      Returned 0%Q
        (<[track_id := {| last_frame := current_frame;
                          last_pos := ground_pos;
                          speed_history := [];
                          current_speed := 0;
                          stable_frames := 0;
                          hits := 0 |}]> tracker_data)
  | Some data =>
      let frames_elapsed := current_frame - last_frame data in
      if frames_elapsed <=? 0 then
        Returned (current_speed data) tracker_data
      else
        match inst_speed_kmh ground_pos data frames_elapsed fps with
        | None => Raised ZeroDivisionError tracker_data
        | Some inst_speed =>
            let data1 :=
              if plausible inst_speed
              then accept_sample data inst_speed frames_elapsed
              else data in
            let data2 :=
              {| last_frame := current_frame;
                 last_pos := ground_pos;
                 speed_history := speed_history data1;
                 current_speed := current_speed data1;
                 stable_frames := stable_frames data1;
                 hits := hits data1 |} in
            Returned (gated data2) (<[track_id := data2]> tracker_data)
        end
  end.

(** What the tracks built by [estimate_speed] satisfy: the samples kept are
    above 5 km/h, and so is the smoothed speed once a sample was accepted. *)
Definition sound (data : Track) : Prop :=
  Forall (fun v => (5 < v)%Q) (speed_history data)
  /\ (1 <= hits data -> (5 <= current_speed data)%Q).

(** The invariant of the tracks of an estimator that starts empty: the
    samples kept are plausible, there are as many as there were hits, up to
    25, each hit took at least one frame, and the smoothed speed is 0 before
    the first hit and within 5 and 160 after it. *)
Definition well_formed (data : Track) : Prop :=
  Forall (fun v => (5 < v /\ v < 220)%Q) (speed_history data)
  /\ Z.of_nat (length (speed_history data)) = Z.min (hits data) 25
  /\ 0 <= hits data <= stable_frames data
  /\ (hits data = 0 -> current_speed data = 0%Q)
  /\ (1 <= hits data -> (5 <= current_speed data <= 160)%Q).

(** The grace period of a track is over. *)
Definition stabilised (data : Track) : Prop :=
  15 <= stable_frames data /\ 8 <= hits data.

End Estimator.

Arguments last_frame {GroundPos} _.
Arguments last_pos {GroundPos} _.
Arguments speed_history {GroundPos} _.
Arguments current_speed {GroundPos} _.
Arguments stable_frames {GroundPos} _.
Arguments hits {GroundPos} _.

End SpeedEstimator.

(** ** [src/alpr.py] *)

Module ALPR.

(** [_clean_plate_text]: [re.sub(r'[^A-Z0-9]', '', text.upper())], on ASCII
    text. *)
Definition upper (c : ascii) : ascii :=
  let n := nat_of_ascii c in
  if (97 <=? n)%nat && (n <=? 122)%nat then ascii_of_nat (n - 32) else c.

Definition is_plate_char (c : ascii) : bool :=
  let n := nat_of_ascii c in
  ((65 <=? n)%nat && (n <=? 90)%nat) || ((48 <=? n)%nat && (n <=? 57)%nat).

Fixpoint _clean_plate_text (text : string) : string :=
  match text with
  | EmptyString => EmptyString
  | String c rest =>
      let u := upper c in
      if is_plate_char u then String u (_clean_plate_text rest)
      else _clean_plate_text rest
  end.

(** A text made of the characters [_clean_plate_text] keeps. *)
Fixpoint all_plate_chars (s : string) : bool :=
  match s with
  | EmptyString => true
  | String c rest => is_plate_char c && all_plate_chars rest
  end.

(** Truth value of a Python [str] or [None]. *)
Definition truthy (o : option string) : bool :=
  match o with
  | Some s => negb (String.eqb s EmptyString)
  | None => false
  end.

(** [o == s] for [o] a [str] or [None]. *)
Definition is_text (o : option string) (s : string) : bool :=
  match o with
  | Some t => String.eqb t s
  | None => false
  end.

Definition Box : Type := Z * Z * Z * Z.

Section Reader.

Variable Pixel : Type.

(** An image is its rows of pixels (a rectangular numpy array of three
    channels). *)
Definition Image : Type := list (list Pixel).

(** [img.shape[:2]]; the width of an image of no rows is read as 0, which
    leaves [img.size] at 0. *)
Definition shape (img : Image) : Z * Z :=
  (Z.of_nat (length img), Z.of_nat (length (default [] (head img)))).

(** [img.size] *)
Definition size (img : Image) : Z := fst (shape img) * snd (shape img) * 3.

(** [img[y1:y2, x1:x2]] *)
Definition crop (img : Image) (y1 y2 x1 x2 : Z) : Image :=
  (fun row => Py.slice row x1 x2) <$> Py.slice img y1 y2.

(** What [__init__] fixes: whether the YOLO plate model was loaded, the
    model itself (the boxes of each result, already through
    [map(int, box)]), and the EasyOCR reader, [None] when its
    initialisation failed.  A reading is a [(text, confidence)] pair. *)
Variable model_loaded : bool.
Variable plate_model : Image -> list (list Box).
Variable reader : option (Image -> list (string * Q)).

(** One value of [self.plate_cache]. *)
Record PlateEntry : Type := mkPlateEntry {
  text : string;
  last_attempt : Q
}.

(** The calls made to the two engines, oldest first. *)
Inductive call : Type :=
  | PlateModelCall (img : Image)
  | ReadtextCall (img : Image).

(** The mutable part of a [LicensePlateReader], and the log of the calls
    it has made to its engines. *)
Record St : Type := mkSt {
  plate_cache : gmap Z PlateEntry;
  calls : list call
}.

Definition M (A : Type) : Type := St -> outcome A St.

Definition ret {A : Type} (a : A) : M A := fun st => Returned a st.

Definition bind {A B : Type} (m : M A) (k : A -> M B) : M B :=
  fun st =>
    match m st with
    | Returned a st' => k a st'
    | Raised e st' => Raised e st'
    end.

Notation "x <- m ;; k" := (bind m (fun x => k))
  (at level 100, m at next level, right associativity).

Definition log (c : call) : M unit :=
  fun st =>
    Returned tt {| plate_cache := plate_cache st; calls := calls st ++ [c] |}.

(** [self.plate_model(img, verbose=False)] *)
Definition run_plate_model (img : Image) : M (list (list Box)) :=
  _ <- log (PlateModelCall img) ;; ret (plate_model img).

(** [self.reader.readtext(img)]: an attribute lookup on [None] raises. *)
Definition readtext (img : Image) : M (list (string * Q)) :=
  match reader with
  | None => fun st => Raised AttributeError st
  | Some ocr => _ <- log (ReadtextCall img) ;; ret (ocr img)
  end.

(** The loop of [_fallback_ocr] over the readings. *)
Fixpoint best_reading
    (ocr_results : list (string * Q)) (best_text : option string)
    (best_conf : Q) : option string :=
  match ocr_results with
  | [] => best_text
  | (text, conf) :: rest =>
      let cleaned := _clean_plate_text text in
      if (5 <=? String.length cleaned)%nat && Py.Qltb best_conf conf
      then best_reading rest (Some cleaned) conf
      else best_reading rest best_text best_conf
  end.

(** [int(h * 0.4)] is [4 * h / 10] rounded down for a height [h >= 0]; the
    slice keeps the rows from there on, whole. *)
Definition _fallback_ocr (vehicle_frame : Image) : M (option string) :=
  match reader with
  | None => ret None
  | Some _ =>
      let h := fst (shape vehicle_frame) in
      let bottom_half :=
        (fun row => Py.slice_from row 0)
          <$> Py.slice_from vehicle_frame (h * 4 / 10) in
      if size bottom_half =? 0 then ret None
      else
        ocr_results <- readtext bottom_half ;;
        let best_text := best_reading ocr_results None 0 in
        if truthy best_text then ret best_text else ret None
  end.

(** The inner loop of [detect_and_read] over the boxes of one result:
    [Some text] when it left by [break]. *)
Fixpoint scan_boxes (vehicle_frame : Image) (boxes : list Box)
    : M (option string) :=
  match boxes with
  | [] => ret None
  | (x1, y1, x2, y2) :: rest =>
      let plate_crop := crop vehicle_frame y1 y2 x1 x2 in
      if size plate_crop =? 0 then scan_boxes vehicle_frame rest
      else
        ocr_results <- readtext plate_crop ;;
        match ocr_results with
        | (text, confidence) :: _ =>
            if Py.Qltb (3 # 10) confidence
            then ret (Some (_clean_plate_text text))
            else scan_boxes vehicle_frame rest
        | [] => scan_boxes vehicle_frame rest
        end
  end.

(** The outer loop: [break] leaves the inner loop only. *)
Fixpoint scan_results (vehicle_frame : Image) (results : list (list Box))
    (best_plate_text : option string) : M (option string) :=
  match results with
  | [] => ret best_plate_text
  | boxes :: rest =>
      found <- scan_boxes vehicle_frame boxes ;;
      scan_results vehicle_frame rest
        (match found with Some t => Some t | None => best_plate_text end)
  end.

(** Lines 52-61: [Some r] when the cache answers with [r]. *)
Definition cache_answer (track_id : Z) (now : Q) (st : St)
    : option (option string) :=
  match plate_cache st !! track_id with
  | None => None
  | Some data =>
      if negb (String.eqb (text data) EmptyString)
         && negb (String.eqb (text data) "Unknown")
      then Some (Some (text data))
      else if Py.Qltb (now - last_attempt data) 2
      then Some (Some (text data))
      else None
  end.

Definition store (track_id : Z) (entry : PlateEntry) : M unit :=
  fun st =>
    Returned tt {| plate_cache := <[track_id := entry]> (plate_cache st);
                   calls := calls st |}.

(** Lines 68-94: the plate model on the crop, then the fallback when it
    found nothing. *)
Definition find_plate (vehicle_frame : Image) : M (option string) :=
  results <- run_plate_model vehicle_frame ;;
  found <- scan_results vehicle_frame results None ;;
  if negb (truthy found) || is_text found "Scanning..."
  then _fallback_ocr vehicle_frame
  else ret found.

(** [now] is the reading of [time.time()] at the start of the call. *)
Definition detect_and_read (vehicle_frame : Image) (track_id : Z) (now : Q)
    : M (option string) :=
  fun st =>
    match cache_answer track_id now st with
    | Some r => Returned r st
    | None =>
        (if negb model_loaded then _fallback_ocr vehicle_frame
         else
           best_plate_text <- find_plate vehicle_frame ;;
           _ <- (if truthy best_plate_text
                 then store track_id
                        {| text := default EmptyString best_plate_text;
                           last_attempt := now |}
                 else ret tt) ;;
           ret (if truthy best_plate_text then best_plate_text
                else Some "Scanning...")) st
    end.

(** A resolved plate in the cache: an entry whose text passes the test of
    line 55. *)
Definition resolved (st : St) (track_id : Z) (t : string) : Prop :=
  exists e, plate_cache st !! track_id = Some e
    /\ text e = t /\ t <> EmptyString /\ t <> "Unknown"%string.

(** Only [store] writes the cache. *)
Definition keeps_cache {A : Type} (m : M A) : Prop :=
  forall st, plate_cache (state_of (m st)) = plate_cache st.

(** A cache whose texts are all non-empty and made of plate characters. *)
Definition clean_cache (st : St) : Prop :=
  map_Forall
    (fun _ e => text e <> EmptyString /\ all_plate_chars (text e) = true)
    (plate_cache st).

(** The state after a sequence of calls [(image, track id, time)], whatever
    they return. *)
Fixpoint after_calls (cs : list (Image * Z * Q)) (st : St) : St :=
  match cs with
  | [] => st
  | (img, track_id, now) :: rest =>
      after_calls rest (state_of (detect_and_read img track_id now st))
  end.

End Reader.

Arguments plate_cache {Pixel} _.
Arguments calls {Pixel} _.
Arguments mkSt {Pixel} _ _.
Arguments PlateModelCall {Pixel} _.
Arguments ReadtextCall {Pixel} _.

End ALPR.

(** ** [src/processor.py] *)

Module Processor.

Import SpeedEstimator ALPR.

(** One element of the [zip] of line 50, its box through [map(int, box)]. *)
Record TrackedBox : Type := mkTrackedBox {
  tb_box : Box;
  tb_track_id : Z;
  tb_conf : Q;
  tb_cls_id : Z
}.

(** One dict appended to [detections]. *)
Record Detection : Type := mkDetection {
  track_id : Z;
  vehicle_type : string;
  confidence : Q;
  box_coordinates : list Z;
  license_plate : option string;
  speed : Q
}.

(** What [process_video] writes on a box: the id, the plate when there is
    one to show, and the speed. *)
Record Label : Type := mkLabel {
  label_track_id : Z;
  label_plate : option string;
  label_speed : Q
}.

(** The label that shows a record. *)
Definition label_of (record : Detection) : Label :=
  {| label_track_id := track_id record;
     label_plate := license_plate record;
     label_speed := speed record |}.

(** Lines 61-65: the plate put in the record for what the reader returned. *)
Definition surfaced (read_plate : option string) : option string :=
  if truthy read_plate && negb (is_text read_plate "Scanning...")
  then read_plate else None.

(** The answers of the plate reader that stand for a plate not resolved
    yet: [None] and the sentinel. *)
Definition unresolved (read : option string) : Prop :=
  read = None \/ read = Some "Scanning..."%string.

(** A plate text: non-empty and over the characters A-Z and 0-9. *)
Definition plate_text (t : string) : Prop :=
  t <> EmptyString /\ all_plate_chars t = true.

(** The coordinates of a tracked box, as the record lists them. *)
Definition coordinates_of (tb : TrackedBox) : list Z :=
  let '(x1, y1, x2, y2) := tb_box tb in [x1; y1; x2; y2].

(** The image point a tracked box is located at. *)
Definition bottom_center_of (tb : TrackedBox) : Z * Z :=
  let '(x1, y1, x2, y2) := tb_box tb in (Z.quot (x1 + x2) 2, y2).

(** The crop of a tracked box out of a frame. *)
Definition crop_of {Pixel : Type} (frame : Image Pixel) (tb : TrackedBox)
    : Image Pixel :=
  let '(x1, y1, x2, y2) := tb_box tb in crop Pixel frame y1 y2 x1 x2.

Section VideoProcessor.

Variable GroundPos : Type.
Variable get_real_world_pos : Z * Z -> GroundPos.
Variable norm_diff : GroundPos -> GroundPos -> Q.

Variable Pixel : Type.
Variable model_loaded : bool.
Variable plate_model : Image Pixel -> list (list Box).
Variable reader : option (Image Pixel -> list (string * Q)).

(** [self.detector.detect_vehicles(frame)], read as lines 39-48 read it:
    [None] when there is no result, no boxes or no track ids. *)
Variable detect_vehicles : Image Pixel -> option (list TrackedBox).

(** [results[0].names] *)
Variable names : Z -> string.

(** Lines 80-95: the box and its label drawn on the frame, in place. *)
Variable draw : Image Pixel -> Box -> Z -> option string -> Q -> Image Pixel.

(** [cv2.imencode] then [base64.b64encode]. *)
Variable encode : Image Pixel -> string.

(** [self.speed_estimator] and [self.alpr_reader]. *)
Record VP : Type := mkVP {
  speed_estimator : gmap Z (Track GroundPos);
  alpr_reader : St Pixel
}.

(** Lines 51-95, for one tracked box.  [frame] is the array the earlier
    boxes of the same frame were drawn on; [now] is what [time.time()]
    reads if the plate reader is called. *)
Definition process_box
    (frame : Image Pixel) (frame_number : Z) (fps : Q) (annotate : bool)
    (tb : TrackedBox) (now : Q) (vp : VP)
    : outcome (Detection * Image Pixel) VP :=
  let '(x1, y1, x2, y2) := tb_box tb in
  let bottom_center := (Z.quot (x1 + x2) 2, y2) in
  match estimate_speed GroundPos get_real_world_pos norm_diff
          (tb_track_id tb) bottom_center frame_number fps
          (speed_estimator vp) with
  | Raised e est => Raised e (mkVP est (alpr_reader vp))
  | Returned speed est =>
      let vehicle_crop := crop Pixel frame y1 y2 x1 x2 in
      let read :=
        if 0 <? size Pixel vehicle_crop then
          match detect_and_read Pixel model_loaded plate_model reader
                  vehicle_crop (tb_track_id tb) now (alpr_reader vp) with
          | Returned read_plate alpr =>
              Returned (surfaced read_plate) alpr
          | Raised e alpr => Raised e alpr
          end
        else Returned None (alpr_reader vp) in
      match read with
      | Raised e alpr => Raised e (mkVP est alpr)
      | Returned plate_text alpr =>
          let record :=
            {| track_id := tb_track_id tb;
               vehicle_type := names (tb_cls_id tb);
               confidence := tb_conf tb;
               box_coordinates := [x1; y1; x2; y2];
               license_plate := plate_text;
               speed := speed |} in
          Returned
            (record,
             if annotate
             then draw frame (tb_box tb) (tb_track_id tb) plate_text speed
             else frame)
            (mkVP est alpr)
      end
  end.

(** What ties the plate of the record of a box to the answer of the plate
    reader, the box being processed in [frame] at time [now] with the reader
    in state [st]: on an empty crop the reader is not asked and the plate is
    null; else the reader has answered, an unresolved answer gives a null
    plate, and a plate in the record is the answer itself, a plate text. *)
Definition plate_follows_read
    (frame : Image Pixel) (tb : TrackedBox) (now : Q) (st : St Pixel)
    (record : Detection) : Prop :=
  (size Pixel (crop_of frame tb) <= 0 /\ license_plate record = None)
  \/ (0 < size Pixel (crop_of frame tb)
      /\ exists read st',
           detect_and_read Pixel model_loaded plate_model reader
             (crop_of frame tb) (tb_track_id tb) now st
           = Returned read st'
           /\ (unresolved read -> license_plate record = None)
           /\ (forall t, license_plate record = Some t ->
                 read = Some t /\ plate_text t)).

(** The [for] loop of line 50.  [clock i] is the reading of the clock for
    the box at position [i] of the frame. *)
Fixpoint process_boxes
    (frame : Image Pixel) (frame_number : Z) (fps : Q) (annotate : bool)
    (boxes : list TrackedBox) (clock : nat -> Q) (vp : VP)
    : outcome (list Detection * Image Pixel) VP :=
  match boxes with
  | [] => Returned ([], frame) vp
  | tb :: rest =>
      match process_box frame frame_number fps annotate tb (clock O) vp with
      | Raised e vp' => Raised e vp'
      | Returned (record, frame') vp' =>
          match process_boxes frame' frame_number fps annotate rest
                  (fun i => clock (S i)) vp' with
          | Raised e vp'' => Raised e vp''
          | Returned (records, frame'') vp'' =>
              Returned (record :: records, frame'') vp''
          end
      end
  end.

(** [frame] is the decoded [frame_data]. *)
Definition process_frame_data
    (frame : Image Pixel) (frame_number : Z) (fps : Q) (annotate : bool)
    (clock : nat -> Q) (vp : VP)
    : outcome (list Detection * option string) VP :=
  match process_boxes frame frame_number fps annotate
          (default [] (detect_vehicles frame)) clock vp with
  | Raised e vp' => Raised e vp'
  | Returned (detections, frame') vp' =>
      Returned
        (detections, if annotate then Some (encode frame') else None) vp'
  end.

(** Lines 166-182 of [process_video]: the box and its label drawn on the
    frame, in place. *)
Variable draw_video :
  Image Pixel -> Box -> Z -> option string -> Q -> Image Pixel.

(** What [process_video] is given to read: a path to no file, a file that
    does not open, or a video with its frame rate and the frames that
    [cap.read()] delivers. *)
Inductive video_source : Type :=
  | NoSuchFile
  | CannotOpen
  | Opened (fps : Q) (frames : list (Image Pixel)).

(** Lines 150-182, for one tracked box: the label drawn and the frame with
    it. *)
Definition video_box
    (frame : Image Pixel) (frame_idx : Z) (fps : Q)
    (tb : TrackedBox) (now : Q) (vp : VP)
    : outcome (Label * Image Pixel) VP :=
  let '(x1, y1, x2, y2) := tb_box tb in
  let bottom_center := (Z.quot (x1 + x2) 2, y2) in
  match estimate_speed GroundPos get_real_world_pos norm_diff
          (tb_track_id tb) bottom_center frame_idx fps
          (speed_estimator vp) with
  | Raised e est => Raised e (mkVP est (alpr_reader vp))
  | Returned speed est =>
      let vehicle_crop := crop Pixel frame y1 y2 x1 x2 in
      let read :=
        if 0 <? size Pixel vehicle_crop then
          detect_and_read Pixel model_loaded plate_model reader
            vehicle_crop (tb_track_id tb) now (alpr_reader vp)
        else Returned (Some "Scanning..."%string) (alpr_reader vp) in
      match read with
      | Raised e alpr => Raised e (mkVP est alpr)
      | Returned plate_text alpr =>
          let shown :=
            if truthy plate_text && negb (is_text plate_text "Scanning...")
            then plate_text else None in
          Returned
            ({| label_track_id := tb_track_id tb;
                label_plate := shown;
                label_speed := speed |},
             draw_video frame (tb_box tb) (tb_track_id tb) shown speed)
            (mkVP est alpr)
      end
  end.

(** The [for] loop of line 149. *)
Fixpoint video_boxes
    (frame : Image Pixel) (frame_idx : Z) (fps : Q)
    (boxes : list TrackedBox) (clock : nat -> Q) (vp : VP)
    : outcome (list Label * Image Pixel) VP :=
  match boxes with
  | [] => Returned ([], frame) vp
  | tb :: rest =>
      match video_box frame frame_idx fps tb (clock O) vp with
      | Raised e vp' => Raised e vp'
      | Returned (label, frame') vp' =>
          match video_boxes frame' frame_idx fps rest
                  (fun i => clock (S i)) vp' with
          | Raised e vp'' => Raised e vp''
          | Returned (labels, frame'') vp'' =>
              Returned (label :: labels, frame'') vp''
          end
      end
  end.

(** The [while] loop of line 136 over the frames read: the frames written,
    each with the labels drawn on it.  [clock i j] is the reading of the
    clock for the box at position [j] of the frame at position [i]. *)
Fixpoint video_frames
    (frames : list (Image Pixel)) (frame_idx : Z) (fps : Q)
    (clock : nat -> nat -> Q) (vp : VP)
    : outcome (list (Image Pixel * list Label)) VP :=
  match frames with
  | [] => Returned [] vp
  | frame :: rest =>
      match video_boxes frame frame_idx fps
              (default [] (detect_vehicles frame)) (clock O) vp with
      | Raised e vp' => Raised e vp'
      | Returned (labels, frame') vp' =>
          match video_frames rest (frame_idx + 1) fps
                  (fun i => clock (S i)) vp' with
          | Raised e vp'' => Raised e vp''
          | Returned written vp'' => Returned ((frame', labels) :: written) vp''
          end
      end
  end.

(** [process_video]: [None] when it returns before it opens the writer,
    else what it wrote. *)
Definition process_video
    (input : video_source) (clock : nat -> nat -> Q) (vp : VP)
    : outcome (option (list (Image Pixel * list Label))) VP :=
  match input with
  | NoSuchFile => Returned None vp
  | CannotOpen => Returned None vp
  | Opened fps frames =>
      match video_frames frames 0 fps clock vp with
      | Raised e vp' => Raised e vp'
      | Returned written vp' => Returned (Some written) vp'
      end
  end.

End VideoProcessor.

Arguments speed_estimator {GroundPos Pixel} _.
Arguments alpr_reader {GroundPos Pixel} _.
Arguments mkVP {GroundPos Pixel} _ _.
Arguments NoSuchFile {Pixel}.
Arguments CannotOpen {Pixel}.
Arguments Opened {Pixel} _ _.

End Processor.

(** ** The smoothing rule in the words of the specification *)

Module SpecWords.

(** The mean of a list of samples. *)
Definition mean (samples : list Q) : Q :=
  (Py.sum samples / inject_Z (Z.of_nat (length samples)))%Q.

(** The 10 samples centred at the midpoint of a sorted list: those at the
    indices [mid - 5] through [mid + 4]. *)
Definition central_window (sorted_history : list Q) : list Q :=
  let mid := Nat.div (length sorted_history) 2 in
  (fun i => nth i sorted_history 0%Q) <$> seq (mid - 5) 10.

(** Sort a copy of the history; over 15 samples take the mean of the central
    window, otherwise the mean of all of them; round to one decimal place and
    take the minimum with 160.0. *)
Definition smoothing (history : list Q) : Q :=
  let sorted_history := Py.sorted history in
  let samples :=
    if (15 <? length sorted_history)%nat
    then central_window sorted_history else sorted_history in
  Py.min (Py.round1 (mean samples)) 160.

End SpecWords.

(** ** Concrete collaborators for running the model *)

Module Fixture.

Import SpeedEstimator.

(** A one-dimensional road: the ground position of an image point is half
    its ordinate, in metres, and the norm of a difference is its absolute
    value.  At 30 frames per second one pixel per frame is 54 km/h. *)
Definition GroundPos : Type := Q.
Definition get_real_world_pos (p : Z * Z) : GroundPos := (inject_Z (snd p) / 2)%Q.
Definition norm_diff (a b : GroundPos) : Q := Qabs (a - b).

Definition estimate := estimate_speed GroundPos get_real_world_pos norm_diff.

(** The values returned by a sequence of calls [(track, y, frame)] at 30
    frames per second, and the final state. *)
Fixpoint run (calls : list (Z * Z * Z)) (td : gmap Z (Track GroundPos))
    : list (option Q) * gmap Z (Track GroundPos) :=
  match calls with
  | [] => ([], td)
  | (tid, y, f) :: rest =>
      let o := estimate tid (0, y) f 30 td in
      let '(outs, td') := run rest (state_of o) in
      (value_of o :: outs, td')
  end.

(** A track after its baseline at frame 0 and one accepted sample of 54 km/h
    at frame 1. *)
Definition warm_track : Track GroundPos :=
  mkTrack GroundPos 1 (1 # 2) [54%Q] 54 1 1.

Definition warm : gmap Z (Track GroundPos) := {[ 7 := warm_track ]}.

(** A track past its grace period: eight accepted samples of 54 km/h over
    twenty frames. *)
Definition cruising_track : Track GroundPos :=
  mkTrack GroundPos 20 10%Q (replicate 8 54%Q) 54 20 8.

Definition cruising : gmap Z (Track GroundPos) := {[ 7 := cruising_track ]}.

(** Images of grey levels, ten rows of two pixels of one level.  The fake
    OCR engine reads a plate off the level of the first pixel it is given;
    the fake plate model proposes the top-left 2x2 box on level 3 and nothing
    elsewhere. *)
Definition Pixel : Type := Z.

Definition solid (level : Z) : ALPR.Image Pixel := replicate 10 [level; level].

Definition first_pixel (img : ALPR.Image Pixel) : Z :=
  default 0 (head (default [] (head img))).

Definition fake_ocr (img : ALPR.Image Pixel) : list (string * Q) :=
  if first_pixel img =? 1 then [("abc-1234"%string, 9 # 10)]
  else if first_pixel img =? 2 then [("XYZ 9876"%string, 9 # 10)]
  else [].

Definition fake_plate_model (img : ALPR.Image Pixel) : list (list ALPR.Box) :=
  if first_pixel img =? 3 then [[(0, 0, 2, 2)]] else [[]].

Definition fresh_reader : ALPR.St Pixel := ALPR.mkSt ∅ [].

(** A reader that has resolved the plate of track 7. *)
Definition abc_entry : ALPR.PlateEntry := ALPR.mkPlateEntry "ABC1234" 100.

Definition resolved_reader : ALPR.St Pixel := ALPR.mkSt {[ 7 := abc_entry ]} [].

Definition read_plate :=
  ALPR.detect_and_read Pixel true fake_plate_model (Some fake_ocr).

(** A processor around these fakes: no drawing, one class name. *)
Definition names (cls_id : Z) : string := "car".
Definition draw (frame : ALPR.Image Pixel) (box : ALPR.Box) (track_id : Z)
    (plate : option string) (speed : Q) : ALPR.Image Pixel := frame.

Definition process_box :=
  Processor.process_box GroundPos get_real_world_pos norm_diff
    Pixel true fake_plate_model (Some fake_ocr) names draw.

(** A box of no width, its bottom centre at ordinate 3. *)
Definition thin_box : Processor.TrackedBox :=
  Processor.mkTrackedBox (1, 1, 1, 3) 7 (9 # 10) 2.

Definition warm_processor : Processor.VP GroundPos Pixel :=
  Processor.mkVP warm fresh_reader.

(** A box over the two columns of all ten rows. *)
Definition wide_box : Processor.TrackedBox :=
  Processor.mkTrackedBox (0, 0, 2, 10) 8 (8 # 10) 2.

Definition detect_vehicles (frame : ALPR.Image Pixel)
    : option (list Processor.TrackedBox) := Some [thin_box; wide_box].

Definition encode (frame : ALPR.Image Pixel) : string := "jpg".

(** A processor that has seen nothing yet, and the file mode around the
    fakes, drawing nothing. *)
Definition fresh_processor : Processor.VP GroundPos Pixel :=
  Processor.mkVP ∅ fresh_reader.

Definition process_video :=
  Processor.process_video GroundPos get_real_world_pos norm_diff
    Pixel true fake_plate_model (Some fake_ocr) detect_vehicles draw.

Definition two_frames : Processor.video_source Pixel :=
  Processor.Opened 30 [solid 1; solid 1].

(** A drawing routine that paints the whole frame black, and the loop of
    the file mode drawing with it. *)
Definition blacken (frame : list (list Pixel)) (box : ALPR.Box) (track_id : Z)
    (plate : option string) (speed : Q) : list (list Pixel) :=
  (fun row : list Pixel => (fun _ => 0) <$> row) <$> frame.

Definition video_boxes :=
  Processor.video_boxes GroundPos get_real_world_pos norm_diff
    Pixel true fake_plate_model (Some fake_ocr) blacken.

(** A frame whose upper half shows the plate ABC1234 and whose lower half
    shows none, with a box on each half and the box of no width. *)
Definition split_frame : ALPR.Image Pixel :=
  replicate 5 [1; 1] ++ replicate 5 [0; 0].

Definition top_box : Processor.TrackedBox :=
  Processor.mkTrackedBox (0, 0, 2, 5) 8 (8 # 10) 2.

Definition bottom_box : Processor.TrackedBox :=
  Processor.mkTrackedBox (0, 5, 2, 10) 9 (8 # 10) 2.

Definition detect_three (frame : ALPR.Image Pixel)
    : option (list Processor.TrackedBox) :=
  Some [top_box; bottom_box; thin_box].

Definition process_three :=
  Processor.process_frame_data GroundPos get_real_world_pos norm_diff
    Pixel true fake_plate_model (Some fake_ocr) detect_three names draw
    encode.

(** A detector that tracks nothing, and one that tracks the wide box only. *)
Definition detect_nothing (frame : ALPR.Image Pixel)
    : option (list Processor.TrackedBox) := None.

Definition detect_wide (frame : ALPR.Image Pixel)
    : option (list Processor.TrackedBox) := Some [wide_box].

Definition process_boxes :=
  Processor.process_boxes GroundPos get_real_world_pos norm_diff
    Pixel true fake_plate_model (Some fake_ocr) names draw.

Definition process_frame_data :=
  Processor.process_frame_data GroundPos get_real_world_pos norm_diff
    Pixel true fake_plate_model (Some fake_ocr) detect_vehicles names draw
    encode.

End Fixture.

(** * Properties of the speed estimator *)

Module SpeedFacts.

Import SpeedEstimator.

Lemma Qltb_lt (a b : Q) : Py.Qltb a b = true <-> (a < b)%Q.
Proof.
  unfold Py.Qltb. rewrite negb_true_iff. split.
  - intros H. apply Qnot_le_lt. intros Hle.
    apply Qle_bool_iff in Hle. congruence.
  - intros H. destruct (Qle_bool b a) eqn:E; [|reflexivity].
    apply Qle_bool_iff in E. exfalso. exact (Qlt_not_le _ _ H E).
Qed.

Lemma Qltb_ge (a b : Q) : Py.Qltb a b = false <-> (b <= a)%Q.
Proof.
  unfold Py.Qltb. rewrite negb_false_iff. apply Qle_bool_iff.
Qed.

Lemma plausible_iff (v : Q) : plausible v = true <-> (5 < v /\ v < 220)%Q.
Proof.
  unfold plausible. rewrite andb_true_iff, !Qltb_lt. reflexivity.
Qed.

Lemma min_le_r (a b : Q) : (Py.min a b <= b)%Q.
Proof.
  unfold Py.min. destruct (Py.Qltb b a) eqn:E.
  - apply Qle_refl.
  - apply Qltb_ge in E. exact E.
Qed.

(** A slice that lies inside the list is the list of its elements at the
    indices from [lo], in order. *)
Lemma slice_inside {A : Type} (l : list A) (d : A) (lo : Z) (k : nat) :
  0 <= lo -> lo + Z.of_nat k <= Z.of_nat (length l) ->
  Py.slice l lo (lo + Z.of_nat k)
  = (fun i => nth i l d) <$> seq (Z.to_nat lo) k.
Proof.
  intros Hlo Hhi. unfold Py.slice, Py.slice_len, Py.clip.
  destruct (Z.ltb_spec lo 0) as [?|_]; [lia|].
  destruct (Z.ltb_spec (lo + Z.of_nat k) 0) as [?|_]; [lia|].
  rewrite !Z.min_l by lia.
  replace (Z.to_nat (Z.max 0 (lo + Z.of_nat k - lo))) with k by lia.
  apply list_eq. intros i.
  rewrite list_lookup_fmap.
  destruct (decide (i < k)%nat) as [Hi|Hi].
  - rewrite lookup_take_lt, lookup_drop, lookup_seq_lt by lia. simpl.
    rewrite nth_lookup.
    destruct (lookup_lt_is_Some_2 l (Z.to_nat lo + i)) as [x Hx]; [lia|].
    rewrite Hx. reflexivity.
  - rewrite lookup_take_ge, lookup_seq_ge by lia. reflexivity.
Qed.

Lemma Forall_insert_sorted (P : Q -> Prop) (x : Q) (l : list Q) :
  P x -> Forall P l -> Forall P (Py.insert_sorted x l).
Proof.
  intros Hx Hl. induction Hl as [|y l Hy Hl IH]; simpl.
  - constructor; [exact Hx|constructor].
  - destruct (Qle_bool x y).
    + constructor; [exact Hx|]. constructor; assumption.
    + constructor; assumption.
Qed.

Lemma Forall_sorted (P : Q -> Prop) (l : list Q) :
  Forall P l -> Forall P (Py.sorted l).
Proof.
  unfold Py.sorted. induction 1 as [|x l Hx Hl IH]; simpl.
  - constructor.
  - apply Forall_insert_sorted; assumption.
Qed.

Lemma length_insert_sorted (x : Q) (l : list Q) :
  length (Py.insert_sorted x l) = S (length l).
Proof.
  induction l as [|y l IH]; simpl; [reflexivity|].
  destruct (Qle_bool x y); simpl; [reflexivity|]. rewrite IH. reflexivity.
Qed.

Lemma length_sorted (l : list Q) : length (Py.sorted l) = length l.
Proof.
  unfold Py.sorted. induction l as [|x l IH]; simpl; [reflexivity|].
  rewrite length_insert_sorted, IH. reflexivity.
Qed.

Lemma Forall_slice {A : Type} (P : A -> Prop) (l : list A) (lo hi : Z) :
  Forall P l -> Forall P (Py.slice l lo hi).
Proof.
  intros H. unfold Py.slice. apply Forall_take, Forall_drop. exact H.
Qed.

(** A sum of samples above 5 is at least 5 times their number. *)
Lemma sum_above_5 (l : list Q) (acc : Q) :
  Forall (fun v => (5 < v)%Q) l ->
  (acc + 5 * inject_Z (Z.of_nat (length l)) <= fold_left Qplus l acc)%Q.
Proof.
  intros H. revert acc. induction H as [|x l Hx Hl IH]; intros acc.
  - cbn [fold_left length]. change (inject_Z (Z.of_nat 0)) with 0%Q. lra.
  - cbn [fold_left length]. eapply Qle_trans; [|apply IH].
    rewrite Nat2Z.inj_succ, <- Z.add_1_r, inject_Z_plus.
    change (inject_Z 1) with 1%Q. lra.
Qed.

Lemma mean_above_5 (l : list Q) (n : nat) :
  Forall (fun v => (5 < v)%Q) l -> length l = n -> (0 < n)%nat ->
  (5 <= Py.sum l / inject_Z (Z.of_nat n))%Q.
Proof.
  intros H <- Hn.
  assert (Hpos : (0 < inject_Z (Z.of_nat (length l)))%Q).
  { change 0%Q with (inject_Z 0). rewrite <- Zlt_Qlt. lia. }
  apply Qle_shift_div_l; [exact Hpos|].
  pose proof (sum_above_5 l 0 H) as Hs. unfold Py.sum. lra.
Qed.

Lemma rint_ge_floor (q : Q) : Qfloor q <= Py.rint q.
Proof.
  unfold Py.rint. destruct (Py.Qltb _ _); [lia|].
  destruct (Py.Qltb _ _); [lia|]. destruct (Z.even _); lia.
Qed.

Lemma round1_above_5 (q : Q) : (5 <= q)%Q -> (5 <= Py.round1 q)%Q.
Proof.
  intros Hq. unfold Py.round1.
  apply Qle_shift_div_l; [reflexivity|].
  change (5 * 10)%Q with (inject_Z 50). rewrite <- Zle_Qle.
  etransitivity; [|apply rint_ge_floor].
  rewrite <- (Qfloor_Z 50). apply Qfloor_resp_le.
  change (inject_Z 50) with (5 * 10)%Q. lra.
Qed.

Lemma min_above_5 (a : Q) : (5 <= a)%Q -> (5 <= Py.min a 160)%Q.
Proof.
  intros Ha. unfold Py.min. destruct (Py.Qltb 160 a); [|exact Ha].
  unfold Qle. simpl. lia.
Qed.

Section Facts.

Variable GroundPos : Type.
Variable get_real_world_pos : Z * Z -> GroundPos.
Variable norm_diff : GroundPos -> GroundPos -> Q.

Abbreviation Track := (Track GroundPos).
Abbreviation estimate_speed :=
  (estimate_speed GroundPos get_real_world_pos norm_diff).
Abbreviation inst_speed_kmh := (inst_speed_kmh GroundPos norm_diff).
Abbreviation accept_sample := (accept_sample GroundPos).
Abbreviation gated := (gated GroundPos).

(** What a call on a known track and a later frame does, in one
    equation. *)
Lemma estimate_speed_fresh
    (track_id : Z) (pos : Z * Z) (frame : Z) (fps v : Q)
    (td : gmap Z Track) (d : Track) :
  td !! track_id = Some d ->
  last_frame d < frame ->
  inst_speed_kmh (get_real_world_pos pos) d (frame - last_frame d) fps
    = Some v ->
  let d1 :=
    if plausible v then accept_sample d v (frame - last_frame d) else d in
  let d2 := mkTrack GroundPos frame (get_real_world_pos pos)
              (speed_history d1) (current_speed d1)
              (stable_frames d1) (hits d1) in
  estimate_speed track_id pos frame fps td
  = Returned (gated d2) (<[track_id := d2]> td).
Proof.
  intros Hd Hlt Hv. unfold SpeedEstimator.estimate_speed.
  rewrite Hd. cbv zeta.
  destruct (Z.leb_spec (frame - last_frame d) 0) as [?|_]; [lia|].
  rewrite Hv. reflexivity.
Qed.

(** What a call on a known track does when the frame index has not moved
    on, in one equation. *)
Lemma estimate_speed_stale
    (track_id : Z) (pos : Z * Z) (frame : Z) (fps : Q)
    (td : gmap Z Track) (d : Track) :
  td !! track_id = Some d ->
  frame <= last_frame d ->
  estimate_speed track_id pos frame fps td = Returned (current_speed d) td.
Proof.
  intros Hd Hle. unfold SpeedEstimator.estimate_speed.
  rewrite Hd. cbv zeta.
  destruct (Z.leb_spec (frame - last_frame d) 0) as [_|?]; [reflexivity|lia].
Qed.

(** Lines 78-83 compute the smoothing rule of the specification. *)
Lemma smoothed_as_specified (history : list Q) :
  smoothed history = SpecWords.smoothing history.
Proof.
  unfold smoothed, SpecWords.smoothing. cbv zeta.
  set (s := Py.sorted history).
  destruct (Z.ltb_spec 15 (Z.of_nat (length s))) as [Hlen|Hlen].
  - destruct (Nat.ltb_spec 15 (length s)) as [_|?]; [|lia].
    unfold SpecWords.mean, SpecWords.central_window.
    rewrite length_fmap, length_seq.
    assert (Hdiv : Z.of_nat (Nat.div (length s) 2) = Z.of_nat (length s) / 2)
      by apply Nat2Z.inj_div.
    assert (Hmid : 8 <= Z.of_nat (length s) / 2
                   /\ Z.of_nat (length s) / 2 + 5 <= Z.of_nat (length s))
      by (Z.div_mod_to_equations; lia).
    replace (Z.of_nat (length s) / 2 + 5)
      with ((Z.of_nat (length s) / 2 - 5) + Z.of_nat 10) by lia.
    rewrite (slice_inside s 0%Q) by lia.
    replace (Z.to_nat (Z.of_nat (length s) / 2 - 5))
      with (Nat.div (length s) 2 - 5)%nat by lia.
    reflexivity.
  - destruct (Nat.ltb_spec 15 (length s)) as [?|_]; [lia|].
    reflexivity.
Qed.

(** C6.  For a track id already in [tracker_data], a call whose frame index
    is at most the stored [last_frame] returns the stored [current_speed] and
    leaves the whole of [tracker_data], hence every field of the track,
    unchanged. *)
Theorem stale_frame_returns_current_speed_unchanged
    (track_id : Z) (pos : Z * Z) (frame : Z) (fps : Q)
    (td : gmap Z Track) (d : Track) :
  td !! track_id = Some d ->
  frame <= last_frame d ->
  estimate_speed track_id pos frame fps td = Returned (current_speed d) td.
Proof.
  intros Hd Hle. unfold SpeedEstimator.estimate_speed.
  rewrite Hd. cbv zeta.
  destruct (Z.leb_spec (frame - last_frame d) 0) as [_|?]; [reflexivity|lia].
Qed.

(** C4.  On a later frame, an instantaneous speed outside the open interval
    (5, 220) is not appended to [speed_history] and leaves [hits],
    [stable_frames] and [current_speed] as they were, while [last_pos] and
    [last_frame] move to the new sample. *)
Theorem rejected_sample_only_advances_pose
    (track_id : Z) (pos : Z * Z) (frame : Z) (fps v : Q)
    (td : gmap Z Track) (d : Track) :
  td !! track_id = Some d ->
  last_frame d < frame ->
  inst_speed_kmh (get_real_world_pos pos) d (frame - last_frame d) fps
    = Some v ->
  (v <= 5 \/ 220 <= v)%Q ->
  exists speed d',
    estimate_speed track_id pos frame fps td
      = Returned speed (<[track_id := d']> td)
    /\ speed_history d' = speed_history d
    /\ hits d' = hits d
    /\ stable_frames d' = stable_frames d
    /\ current_speed d' = current_speed d
    /\ last_pos d' = get_real_world_pos pos
    /\ last_frame d' = frame.
Proof.
  intros Hd Hlt Hv Hout.
  rewrite (estimate_speed_fresh _ _ _ _ _ _ _ Hd Hlt Hv).
  assert (Hp : plausible v = false).
  { destruct (plausible v) eqn:E; [|reflexivity].
    apply plausible_iff in E. destruct E as [E1 E2].
    destruct Hout as [H|H].
    - exfalso. exact (Qlt_not_le _ _ E1 H).
    - exfalso. exact (Qlt_not_le _ _ E2 H). }
  rewrite Hp. cbv zeta. eexists _, _. split; [reflexivity|].
  simpl. repeat split; reflexivity.
Qed.

(** C5.  After an accepted sample, [current_speed] is the smoothing rule of
    the specification applied to the stored [speed_history], and it is at
    most 160.0. *)
Theorem accepted_sample_sets_smoothed_speed
    (track_id : Z) (pos : Z * Z) (frame : Z) (fps v : Q)
    (td : gmap Z Track) (d : Track) :
  td !! track_id = Some d ->
  last_frame d < frame ->
  inst_speed_kmh (get_real_world_pos pos) d (frame - last_frame d) fps
    = Some v ->
  (5 < v /\ v < 220)%Q ->
  exists speed d',
    estimate_speed track_id pos frame fps td
      = Returned speed (<[track_id := d']> td)
    /\ current_speed d' = SpecWords.smoothing (speed_history d')
    /\ (current_speed d' <= 160)%Q.
Proof.
  intros Hd Hlt Hv Hin.
  rewrite (estimate_speed_fresh _ _ _ _ _ _ _ Hd Hlt Hv).
  apply plausible_iff in Hin. rewrite Hin. cbv zeta.
  eexists _, _. split; [reflexivity|]. simpl. split.
  - apply smoothed_as_specified.
  - apply min_le_r.
Qed.

(** X1.  The first call for a track id records the baseline and returns 0. *)
Theorem new_track_returns_zero
    (track_id : Z) (pos : Z * Z) (frame : Z) (fps : Q) (td : gmap Z Track) :
  td !! track_id = None ->
  estimate_speed track_id pos frame fps td
  = Returned 0%Q
      (<[track_id := mkTrack GroundPos frame (get_real_world_pos pos) [] 0 0 0]>
         td).
Proof.
  intros Hd. unfold SpeedEstimator.estimate_speed. rewrite Hd. reflexivity.
Qed.

(** X2.  On a later frame the grace period applies: inside it the call
    returns 0 whatever [current_speed] holds. *)
Theorem fresh_frame_is_gated
    (track_id : Z) (pos : Z * Z) (frame : Z) (fps speed : Q)
    (td td' : gmap Z Track) (d : Track) :
  td !! track_id = Some d ->
  last_frame d < frame ->
  estimate_speed track_id pos frame fps td = Returned speed td' ->
  exists d', td' !! track_id = Some d'
    /\ (stable_frames d' < 15 \/ hits d' < 8 -> speed = 0%Q).
Proof.
  intros Hd Hlt Hrun.
  destruct (inst_speed_kmh (get_real_world_pos pos) d (frame - last_frame d) fps)
    as [v|] eqn:Hv.
  - rewrite (estimate_speed_fresh _ _ _ _ _ _ _ Hd Hlt Hv) in Hrun.
    cbv zeta in Hrun. injection Hrun as <- <-.
    eexists. split; [apply lookup_insert_eq|].
    unfold SpeedEstimator.gated. simpl. intros [H|H].
    + apply Z.ltb_lt in H. rewrite H. reflexivity.
    + apply Z.ltb_lt in H. rewrite H, orb_true_r. reflexivity.
  - unfold SpeedEstimator.estimate_speed in Hrun. rewrite Hd in Hrun.
    cbv zeta in Hrun.
    destruct (Z.leb_spec (frame - last_frame d) 0) as [?|_]; [lia|].
    rewrite Hv in Hrun. discriminate.
Qed.

Lemma estimate_speed_counters
    (track_id other : Z) (pos : Z * Z) (frame : Z) (fps : Q)
    (td : gmap Z Track) (d : Track) :
  td !! track_id = Some d ->
  exists d',
    state_of (estimate_speed other pos frame fps td) !! track_id = Some d'
    /\ stable_frames d <= stable_frames d'
    /\ hits d <= hits d'.
Proof.
  intros Hd. unfold SpeedEstimator.estimate_speed.
  destruct (td !! other) as [o|] eqn:Ho; cbv zeta.
  - destruct (Z.leb_spec (frame - last_frame o) 0) as [Hle|Hgt].
    + exists d. simpl. split; [exact Hd|lia].
    + destruct (inst_speed_kmh (get_real_world_pos pos) o
                  (frame - last_frame o) fps) as [v|]; simpl.
      * destruct (decide (other = track_id)) as [->|Hne].
        -- rewrite lookup_insert_eq. eexists. split; [reflexivity|].
           assert (o = d) as -> by congruence.
           destruct (plausible v); simpl; lia.
        -- rewrite lookup_insert_ne by exact Hne.
           exists d. split; [exact Hd|lia].
      * exists d. split; [exact Hd|lia].
  - simpl. destruct (decide (other = track_id)) as [->|Hne]; [congruence|].
    rewrite lookup_insert_ne by exact Hne. exists d. split; [exact Hd|lia].
Qed.

(** X3.  No call lowers the two counters of any track. *)
Theorem counters_never_decrease
    (track_id other : Z) (pos : Z * Z) (frame : Z) (fps : Q)
    (td : gmap Z Track) (d : Track) :
  td !! track_id = Some d ->
  exists d',
    state_of (estimate_speed other pos frame fps td) !! track_id = Some d'
    /\ stable_frames d <= stable_frames d'
    /\ hits d <= hits d'.
Proof.
  intros Hd. unfold SpeedEstimator.estimate_speed.
  destruct (td !! other) as [o|] eqn:Ho; cbv zeta.
  - destruct (Z.leb_spec (frame - last_frame o) 0) as [Hle|Hgt].
    + exists d. simpl. split; [exact Hd|lia].
    + destruct (inst_speed_kmh (get_real_world_pos pos) o
                  (frame - last_frame o) fps) as [v|]; simpl.
      * destruct (decide (other = track_id)) as [->|Hne].
        -- rewrite lookup_insert_eq. eexists. split; [reflexivity|].
           assert (o = d) as -> by congruence.
           destruct (plausible v); simpl; lia.
        -- rewrite lookup_insert_ne by exact Hne.
           exists d. split; [exact Hd|lia].
      * exists d. split; [exact Hd|lia].
  - simpl. destruct (decide (other = track_id)) as [->|Hne]; [congruence|].
    rewrite lookup_insert_ne by exact Hne. exists d. split; [exact Hd|lia].
Qed.

(** A track past its grace period stays past it through any call. *)
Lemma estimate_speed_keeps_stabilised
    (track_id other : Z) (pos : Z * Z) (frame : Z) (fps : Q)
    (td : gmap Z Track) (d : Track) :
  td !! track_id = Some d -> stabilised GroundPos d ->
  exists d',
    state_of (estimate_speed other pos frame fps td) !! track_id = Some d'
    /\ stabilised GroundPos d'.
Proof.
  intros Hd [Hs Hh].
  destruct (estimate_speed_counters track_id other pos frame fps td d Hd)
    as (d' & Hd' & Hs' & Hh').
  exists d'. split; [exact Hd'|]. split; lia.
Qed.

(** A call at frame [frame] leaves no track with a later last frame than
    [frame], if there was none before. *)
Lemma estimate_speed_last_frame
    (track_id : Z) (pos : Z * Z) (frame : Z) (fps : Q) (td : gmap Z Track) :
  map_Forall (fun _ d => last_frame d <= frame) td ->
  map_Forall (fun _ d => last_frame d <= frame)
    (state_of (estimate_speed track_id pos frame fps td)).
Proof.
  intros Htd. unfold SpeedEstimator.estimate_speed.
  destruct (td !! track_id) as [d|]; cbv zeta.
  - destruct (_ <=? 0); [exact Htd|].
    destruct (inst_speed_kmh _ _ _ _); [|exact Htd].
    simpl. apply map_Forall_insert_2; [simpl; lia|exact Htd].
  - simpl. apply map_Forall_insert_2; [simpl; lia|exact Htd].
Qed.


(** A history of samples above 5 km/h smooths to at least 5 km/h. *)
Lemma smoothed_above_5 (history : list Q) :
  history <> [] ->
  Forall (fun v => (5 < v)%Q) history ->
  (5 <= smoothed history)%Q.
Proof.
  intros Hne Hall. unfold smoothed. cbv zeta.
  apply min_above_5, round1_above_5.
  pose proof (Forall_sorted _ _ Hall) as Hs.
  pose proof (length_sorted history) as Hlen.
  set (s := Py.sorted history) in *.
  destruct (Z.ltb_spec 15 (Z.of_nat (length s))) as [Hlong|Hshort].
  - assert (Hmid : 8 <= Z.of_nat (length s) / 2
                   /\ Z.of_nat (length s) / 2 + 5 <= Z.of_nat (length s))
      by (Z.div_mod_to_equations; lia).
    apply (mean_above_5 _ 10); [apply Forall_slice; exact Hs| |lia].
    replace (Z.of_nat (length s) / 2 + 5)
      with ((Z.of_nat (length s) / 2 - 5) + Z.of_nat 10) by lia.
    rewrite (slice_inside s 0%Q) by lia.
    rewrite length_fmap, length_seq. reflexivity.
  - apply mean_above_5; [exact Hs|reflexivity|].
    rewrite Hlen. destruct history; [contradiction|simpl; lia].
Qed.

Lemma accept_sample_sound (d : Track) (v : Q) (frames_elapsed : Z) :
  sound GroundPos d -> plausible v = true ->
  sound GroundPos (accept_sample d v frames_elapsed).
Proof.
  intros [Hh _] Hv. apply plausible_iff in Hv. destruct Hv as [Hv _].
  assert (Happ : Forall (fun v => (5 < v)%Q) (speed_history d ++ [v])).
  { apply Forall_app. split; [exact Hh|]. constructor; [exact Hv|constructor]. }
  unfold sound, SpeedEstimator.accept_sample. cbn [speed_history current_speed hits].
  destruct (25 <? Z.of_nat (length (speed_history d ++ [v]))) eqn:E.
  - apply Z.ltb_lt in E.
    assert (Htl : Forall (fun v => (5 < v)%Q) (tail (speed_history d ++ [v]))).
    { destruct (speed_history d ++ [v]); [constructor|].
      simpl. apply Forall_inv_tail in Happ. exact Happ. }
    split; [exact Htl|]. intros _. apply smoothed_above_5; [|exact Htl].
    destruct (speed_history d ++ [v]) as [|a [|b l]]; simpl in *;
      [lia|lia|discriminate].
  - split; [exact Happ|]. intros _. apply smoothed_above_5; [|exact Happ].
    destruct (speed_history d); discriminate.
Qed.

(** Every call keeps every track sound. *)
Lemma estimate_speed_sound
    (track_id : Z) (pos : Z * Z) (frame : Z) (fps : Q) (td : gmap Z Track) :
  map_Forall (fun _ d => sound GroundPos d) td ->
  map_Forall (fun _ d => sound GroundPos d)
    (state_of (estimate_speed track_id pos frame fps td)).
Proof.
  intros Htd. unfold SpeedEstimator.estimate_speed.
  destruct (td !! track_id) as [d|] eqn:Hd; cbv zeta.
  - destruct (Z.leb_spec (frame - last_frame d) 0); [exact Htd|].
    destruct (inst_speed_kmh _ _ _ _) as [v|]; [|exact Htd].
    simpl. apply map_Forall_insert_2; [|exact Htd].
    pose proof (Htd _ _ Hd) as Hs.
    destruct (plausible v) eqn:Hv; [|exact Hs].
    exact (accept_sample_sound d v _ Hs Hv).
  - simpl. apply map_Forall_insert_2; [|exact Htd].
    split; [constructor|]. simpl. lia.
Qed.

(** X4.  Once the grace period of a sound track is over, every call for it
    returns a speed of at least 5 km/h and leaves the track past its grace
    period. *)
Theorem stabilised_track_reports_speed
    (track_id : Z) (pos : Z * Z) (frame : Z) (fps speed : Q)
    (td td' : gmap Z Track) (d : Track) :
  td !! track_id = Some d ->
  sound GroundPos d -> stabilised GroundPos d ->
  estimate_speed track_id pos frame fps td = Returned speed td' ->
  (5 <= speed)%Q
  /\ exists d', td' !! track_id = Some d' /\ stabilised GroundPos d'.
Proof.
  intros Hd Hs [Hst Hh] Hrun.
  destruct (Z.le_gt_cases frame (last_frame d)) as [Hle|Hgt].
  - rewrite (estimate_speed_stale _ _ _ _ _ _ Hd Hle) in Hrun.
    injection Hrun as <- <-. split.
    + apply Hs. lia.
    + exists d. split; [exact Hd|]. split; assumption.
  - destruct (inst_speed_kmh (get_real_world_pos pos) d (frame - last_frame d)
                fps) as [v|] eqn:Hv.
    + rewrite (estimate_speed_fresh _ _ _ _ _ _ _ Hd Hgt Hv) in Hrun.
      cbv zeta in Hrun. injection Hrun as <- <-.
      assert (Hd1 : sound GroundPos
                      (if plausible v
                       then accept_sample d v (frame - last_frame d) else d)
                    /\ stabilised GroundPos
                      (if plausible v
                       then accept_sample d v (frame - last_frame d) else d)).
      { destruct (plausible v) eqn:Hp.
        - split; [exact (accept_sample_sound d v _ Hs Hp)|].
          unfold stabilised. simpl. lia.
        - split; [exact Hs|]. split; assumption. }
      destruct Hd1 as [[_ Hcs] [Hst1 Hh1]]. split.
      * unfold SpeedEstimator.gated. simpl.
        destruct (Z.ltb_spec (stable_frames
          (if plausible v then accept_sample d v (frame - last_frame d) else d))
          15); [lia|].
        destruct (Z.ltb_spec (hits
          (if plausible v then accept_sample d v (frame - last_frame d) else d))
          8); [lia|]. simpl. apply Hcs. lia.
      * eexists. split; [apply lookup_insert_eq|]. split; simpl; assumption.
    + unfold SpeedEstimator.estimate_speed in Hrun. rewrite Hd in Hrun.
      cbv zeta in Hrun.
      destruct (Z.leb_spec (frame - last_frame d) 0); [lia|].
      rewrite Hv in Hrun. discriminate.
Qed.

Lemma smoothed_at_most_160 (history : list Q) : (smoothed history <= 160)%Q.
Proof. unfold smoothed. cbv zeta. apply min_le_r. Qed.

Lemma accept_sample_well_formed (d : Track) (v : Q) (frames_elapsed : Z) :
  well_formed GroundPos d -> plausible v = true -> 0 < frames_elapsed ->
  well_formed GroundPos (accept_sample d v frames_elapsed).
Proof.
  intros (Hh & Hlen & Hhits & _ & _) Hv Hfe.
  apply plausible_iff in Hv.
  assert (Happ : Forall (fun v => (5 < v /\ v < 220)%Q) (speed_history d ++ [v])).
  { apply Forall_app. split; [exact Hh|]. constructor; [exact Hv|constructor]. }
  assert (Hlapp : length (speed_history d ++ [v])
                  = S (length (speed_history d)))
    by (rewrite length_app; simpl; lia).
  unfold well_formed, SpeedEstimator.accept_sample.
  cbn [speed_history current_speed hits stable_frames].
  set (history := if 25 <? Z.of_nat (length (speed_history d ++ [v]))
                  then tail (speed_history d ++ [v])
                  else speed_history d ++ [v]).
  assert (Hhist : Forall (fun v => (5 < v /\ v < 220)%Q) history
                  /\ Z.of_nat (length history) = Z.min (hits d + 1) 25
                  /\ history <> []).
  { subst history.
    destruct (Z.ltb_spec 25 (Z.of_nat (length (speed_history d ++ [v]))))
      as [Hfull|Hroom].
    - destruct (speed_history d ++ [v]) as [|a [|b l]] eqn:E;
        simpl in Hfull, Hlapp; [lia|lia|].
      cbn [tail]. split; [apply Forall_inv_tail in Happ; exact Happ|].
      split; [simpl in *; lia|discriminate].
    - split; [exact Happ|]. split; [lia|].
      destruct (speed_history d); discriminate. }
  destruct Hhist as (Hall & Hlen' & Hne).
  split; [exact Hall|]. split; [exact Hlen'|]. split; [lia|].
  split; [lia|]. intros _. split.
  - apply smoothed_above_5; [exact Hne|].
    eapply Forall_impl; [exact Hall|]. intros x [Hx _]. exact Hx.
  - apply smoothed_at_most_160.
Qed.

(** Every call keeps the tracks well-formed, and on well-formed tracks it
    returns 0 or a speed within 5 and 160. *)
Lemma estimate_speed_well_formed
    (track_id : Z) (pos : Z * Z) (frame : Z) (fps : Q) (td : gmap Z Track) :
  map_Forall (fun _ d => well_formed GroundPos d) td ->
  map_Forall (fun _ d => well_formed GroundPos d)
    (state_of (estimate_speed track_id pos frame fps td))
  /\ forall speed td',
       estimate_speed track_id pos frame fps td = Returned speed td' ->
       speed = 0%Q \/ (5 <= speed <= 160)%Q.
Proof.
  intros Htd.
  assert (Hcs : forall d, well_formed GroundPos d ->
            current_speed d = 0%Q \/ (5 <= current_speed d <= 160)%Q).
  { intros d (_ & _ & Hhits & H0 & H1).
    destruct (decide (hits d = 0)) as [Hz|Hnz]; [left; auto|].
    right. apply H1. lia. }
  unfold SpeedEstimator.estimate_speed.
  destruct (td !! track_id) as [d|] eqn:Hd; cbv zeta.
  - pose proof (Htd _ _ Hd) as Hwf.
    destruct (Z.leb_spec (frame - last_frame d) 0) as [?|Hfe].
    { split; [exact Htd|]. intros speed td' Heq. injection Heq as <- _.
      apply Hcs, Hwf. }
    destruct (inst_speed_kmh _ _ _ _) as [v|];
      [|split; [exact Htd|discriminate]].
    assert (Hwf1 : well_formed GroundPos
                     (if plausible v
                      then accept_sample d v (frame - last_frame d) else d)).
    { destruct (plausible v) eqn:Hv; [|exact Hwf].
      exact (accept_sample_well_formed d v _ Hwf Hv Hfe). }
    split.
    + simpl. apply map_Forall_insert_2; [exact Hwf1|exact Htd].
    + intros speed td' Heq. injection Heq as <- _.
      unfold SpeedEstimator.gated. simpl.
      destruct (_ || _); [left; reflexivity|]. apply Hcs, Hwf1.
  - split.
    + simpl. apply map_Forall_insert_2; [|exact Htd].
      unfold well_formed. simpl.
      split; [constructor|]. split; [reflexivity|]. split; [lia|].
      split; [reflexivity|]. lia.
    + intros speed td' Heq. injection Heq as <- _. left. reflexivity.
Qed.

(** X5.  Every call keeps every track of [tracker_data] within the
    invariant [well_formed], which the empty [tracker_data] of a new
    estimator satisfies. *)
Theorem well_formed_is_kept
    (track_id : Z) (pos : Z * Z) (frame : Z) (fps : Q) (td : gmap Z Track) :
  map_Forall (fun _ d => well_formed GroundPos d) td ->
  map_Forall (fun _ d => well_formed GroundPos d)
    (state_of (estimate_speed track_id pos frame fps td)).
Proof.
  intros Htd. apply estimate_speed_well_formed. exact Htd.
Qed.

(** X6.  On well-formed tracks every returned speed is 0 or lies within 5
    and 160 km/h. *)
Theorem reported_speed_is_in_range
    (track_id : Z) (pos : Z * Z) (frame : Z) (fps speed : Q)
    (td td' : gmap Z Track) :
  map_Forall (fun _ d => well_formed GroundPos d) td ->
  estimate_speed track_id pos frame fps td = Returned speed td' ->
  speed = 0%Q \/ (5 <= speed <= 160)%Q.
Proof.
  intros Htd Hrun.
  exact (proj2 (estimate_speed_well_formed _ _ _ _ _ Htd) _ _ Hrun).
Qed.

(** X7.  An accepted sample is appended to a history of at most 25 samples
    and the oldest sample leaves when that makes 26: the new history is the
    last 25 of the old one followed by the sample. *)
Theorem history_keeps_last_25
    (track_id : Z) (pos : Z * Z) (frame : Z) (fps v : Q)
    (td : gmap Z Track) (d : Track) :
  td !! track_id = Some d ->
  last_frame d < frame ->
  inst_speed_kmh (get_real_world_pos pos) d (frame - last_frame d) fps
    = Some v ->
  (5 < v /\ v < 220)%Q ->
  (length (speed_history d) <= 25)%nat ->
  exists speed d',
    estimate_speed track_id pos frame fps td
      = Returned speed (<[track_id := d']> td)
    /\ speed_history d'
       = drop (length (speed_history d) + 1 - 25) (speed_history d ++ [v])
    /\ (length (speed_history d') <= 25)%nat
    /\ last (speed_history d') = Some v.
Proof.
  intros Hd Hlt Hv Hin Hlen.
  rewrite (estimate_speed_fresh _ _ _ _ _ _ _ Hd Hlt Hv).
  apply plausible_iff in Hin. rewrite Hin. cbv zeta.
  eexists _, _. split; [reflexivity|].
  cbn [speed_history SpeedEstimator.accept_sample].
  assert (Hlapp : length (speed_history d ++ [v])
                  = S (length (speed_history d)))
    by (rewrite length_app; simpl; lia).
  destruct (Z.ltb_spec 25 (Z.of_nat (length (speed_history d ++ [v]))))
    as [Hfull|Hroom].
  - replace (length (speed_history d) + 1 - 25)%nat with 1%nat by lia.
    destruct (speed_history d) as [|a l] eqn:E; simpl in *; [lia|].
    split; [reflexivity|]. split; [rewrite length_app; simpl; lia|].
    destruct l; [simpl in *; lia|]. rewrite last_app. reflexivity.
  - replace (length (speed_history d) + 1 - 25)%nat with 0%nat by lia.
    split; [reflexivity|]. split; [lia|]. rewrite last_app. reflexivity.
Qed.

(** X8.  On a known track and a later frame, a frame rate of zero makes the
    call raise [ZeroDivisionError], the state as it was. *)
Theorem zero_frame_rate_raises
    (track_id : Z) (pos : Z * Z) (frame : Z) (fps : Q)
    (td : gmap Z Track) (d : Track) :
  td !! track_id = Some d ->
  last_frame d < frame ->
  (fps == 0)%Q ->
  estimate_speed track_id pos frame fps td = Raised ZeroDivisionError td.
Proof.
  intros Hd Hlt Hfps. unfold SpeedEstimator.estimate_speed.
  rewrite Hd. cbv zeta.
  destruct (Z.leb_spec (frame - last_frame d) 0) as [?|_]; [lia|].
  unfold SpeedEstimator.inst_speed_kmh.
  apply Qeq_bool_iff in Hfps. rewrite Hfps. reflexivity.
Qed.

Lemma estimate_speed_other
    (track_id other : Z) (pos : Z * Z) (frame : Z) (fps : Q)
    (td : gmap Z Track) :
  other <> track_id ->
  state_of (estimate_speed track_id pos frame fps td) !! other = td !! other.
Proof.
  intros Hne. unfold SpeedEstimator.estimate_speed.
  destruct (td !! track_id) as [d|]; cbv zeta.
  - destruct (_ <=? 0); [reflexivity|].
    destruct (inst_speed_kmh _ _ _ _); [|reflexivity].
    simpl. apply lookup_insert_ne. congruence.
  - simpl. apply lookup_insert_ne. congruence.
Qed.

(** X9.  A call for one track id leaves the entry of every other track id
    as it was. *)
Theorem other_tracks_are_untouched
    (track_id other : Z) (pos : Z * Z) (frame : Z) (fps : Q)
    (td : gmap Z Track) :
  other <> track_id ->
  state_of (estimate_speed track_id pos frame fps td) !! other = td !! other.
Proof.
  intros Hne. unfold SpeedEstimator.estimate_speed.
  destruct (td !! track_id) as [d|]; cbv zeta.
  - destruct (_ <=? 0); [reflexivity|].
    destruct (inst_speed_kmh _ _ _ _); [|reflexivity].
    simpl. apply lookup_insert_ne. congruence.
  - simpl. apply lookup_insert_ne. congruence.
Qed.

(** Past the test of lines 93-94 the track is past its grace period. *)
Lemma gated_cases (d : Track) :
  gated d = 0%Q \/ stabilised GroundPos d.
Proof.
  unfold SpeedEstimator.gated, stabilised.
  destruct (Z.ltb_spec (stable_frames d) 15); [left; reflexivity|].
  destruct (Z.ltb_spec (hits d) 8); [left; reflexivity|].
  right. split; assumption.
Qed.

(** On a frame beyond the last frame of the track, or for a new track, a
    nonzero return means that the track is past its grace period when the
    call ends. *)
Lemma estimate_speed_later_frame
    (track_id : Z) (pos : Z * Z) (frame : Z) (fps speed : Q)
    (td td' : gmap Z Track) :
  (forall d, td !! track_id = Some d -> last_frame d < frame) ->
  estimate_speed track_id pos frame fps td = Returned speed td' ->
  speed = 0%Q
  \/ exists d', td' !! track_id = Some d' /\ stabilised GroundPos d'.
Proof.
  intros Hlater Hrun.
  destruct (td !! track_id) as [d|] eqn:Hd.
  - specialize (Hlater d eq_refl).
    destruct (inst_speed_kmh (get_real_world_pos pos) d (frame - last_frame d)
                fps) as [v|] eqn:Hv.
    + rewrite (estimate_speed_fresh _ _ _ _ _ _ _ Hd Hlater Hv) in Hrun.
      cbv zeta in Hrun. injection Hrun as <- <-.
      match goal with |- gated ?d2 = _ \/ _ =>
        destruct (gated_cases d2) as [H|H]; [left; exact H|right; exists d2]
      end.
      split; [apply lookup_insert_eq|exact H].
    + unfold SpeedEstimator.estimate_speed in Hrun. rewrite Hd in Hrun.
      cbv zeta in Hrun.
      destruct (Z.leb_spec (frame - last_frame d) 0); [lia|].
      rewrite Hv in Hrun. discriminate.
  - unfold SpeedEstimator.estimate_speed in Hrun. rewrite Hd in Hrun.
    injection Hrun as <- _. left. reflexivity.
Qed.

(** X10.  A track that has not moved on the ground since its last sample has
    the sample of a later frame rejected: history, counters and smoothed
    speed stay, the pose advances. *)
Theorem stationary_sample_is_rejected
    (track_id : Z) (pos : Z * Z) (frame : Z) (fps : Q)
    (td : gmap Z Track) (d : Track) :
  td !! track_id = Some d ->
  last_frame d < frame ->
  ~ (fps == 0)%Q ->
  (norm_diff (get_real_world_pos pos) (last_pos d) == 0)%Q ->
  exists speed d',
    estimate_speed track_id pos frame fps td
      = Returned speed (<[track_id := d']> td)
    /\ speed_history d' = speed_history d
    /\ current_speed d' = current_speed d
    /\ hits d' = hits d
    /\ stable_frames d' = stable_frames d
    /\ last_frame d' = frame.
Proof.
  intros Hd Hlt Hfps Hdist.
  assert (Hv : exists v,
            inst_speed_kmh (get_real_world_pos pos) d (frame - last_frame d) fps
              = Some v /\ (v == 0)%Q).
  { unfold SpeedEstimator.inst_speed_kmh.
    destruct (Qeq_bool fps 0) eqn:E;
      [apply Qeq_bool_iff in E; contradiction|].
    eexists. split; [reflexivity|]. rewrite Hdist.
    unfold Qdiv. rewrite Qmult_0_l, Qmult_0_l. reflexivity. }
  destruct Hv as (v & Hv & Hzero).
  rewrite (estimate_speed_fresh _ _ _ _ _ _ _ Hd Hlt Hv).
  assert (Hp : plausible v = false).
  { unfold plausible. apply andb_false_iff. left. apply Qltb_ge.
    rewrite Hzero. unfold Qle. simpl. lia. }
  rewrite Hp. cbv zeta. eexists _, _. split; [reflexivity|].
  simpl. repeat split; reflexivity.
Qed.

End Facts.

Section Runs.

Import Fixture.

Lemma stale_frame_returns_current_speed_unchanged_witness :
  warm !! 7 = Some warm_track
  /\ 1 <= last_frame warm_track
  /\ estimate 7 (0, 9) 1 30 warm = Returned (current_speed warm_track) warm.
Proof.
  assert (H1 : warm !! 7 = Some warm_track) by reflexivity.
  assert (H2 : 1 <= last_frame warm_track) by (simpl; lia).
  split; [exact H1|]. split; [exact H2|].
  exact (stale_frame_returns_current_speed_unchanged
           GroundPos get_real_world_pos norm_diff 7 (0, 9) 1 30
           warm warm_track H1 H2).
Defined.

(** At frame 2 the point has moved 9 pixels: 486 km/h. *)
Lemma rejected_sample_only_advances_pose_witness :
  exists speed d',
    estimate 7 (0, 10) 2 30 warm = Returned speed (<[7 := d']> warm)
    /\ speed_history d' = speed_history warm_track
    /\ hits d' = hits warm_track
    /\ stable_frames d' = stable_frames warm_track
    /\ current_speed d' = current_speed warm_track
    /\ last_pos d' = get_real_world_pos (0, 10)
    /\ last_frame d' = 2.
Proof.
  eapply (rejected_sample_only_advances_pose
            GroundPos get_real_world_pos norm_diff 7 (0, 10) 2 30 _
            warm warm_track).
  - reflexivity.
  - simpl. lia.
  - vm_compute. reflexivity.
  - right. unfold Qle. simpl. lia.
Defined.

(** At frame 2 the point has moved 2 pixels: 108 km/h. *)
Lemma accepted_sample_sets_smoothed_speed_witness :
  exists speed d',
    estimate 7 (0, 3) 2 30 warm = Returned speed (<[7 := d']> warm)
    /\ current_speed d' = SpecWords.smoothing (speed_history d')
    /\ (current_speed d' <= 160)%Q.
Proof.
  eapply (accepted_sample_sets_smoothed_speed
            GroundPos get_real_world_pos norm_diff 7 (0, 3) 2 30 _
            warm warm_track).
  - reflexivity.
  - simpl. lia.
  - vm_compute. reflexivity.
  - split; unfold Qlt; simpl; lia.
Defined.

(** C3, on the code.  A track gets its baseline at frame 0 and one accepted
    sample of 54 km/h at frame 1; the call of frame 1 returns 0, the track
    being inside the grace period (1 stable frame, 1 hit).  A second call
    with frame 1 returns 54.0 all the same. *)
Lemma stale_frame_reports_speed_inside_grace_period :
  exists td d speed,
    run [(7, 0, 0); (7, 1, 1)] ∅ = ([Some 0%Q; Some 0%Q], td)
    /\ td !! 7 = Some d
    /\ stable_frames d = 1 /\ hits d = 1
    /\ estimate 7 (0, 1) 1 30 td = Returned speed td
    /\ (speed == 54)%Q.
Proof.
  eexists _, _, _. split; [vm_compute; reflexivity|].
  split; [vm_compute; reflexivity|].
  split; [reflexivity|]. split; [reflexivity|].
  split; [vm_compute; reflexivity|]. reflexivity.
Qed.

(** C10, on the code.  The third call, a repeat of frame 1, returns 54.0;
    the fourth, an accepted sample at frame 2, returns 0 again. *)
Lemma nonzero_report_followed_by_zero :
  exists speed,
    fst (run [(7, 0, 0); (7, 1, 1); (7, 1, 1); (7, 2, 2)] ∅)
    = [Some 0%Q; Some 0%Q; Some speed; Some 0%Q]
    /\ ~ (speed == 0)%Q.
Proof.
  eexists. split; [vm_compute; reflexivity|]. discriminate.
Qed.

Lemma warm_is_well_formed :
  map_Forall (fun _ d => well_formed GroundPos d) warm.
Proof.
  apply map_Forall_singleton. unfold well_formed. simpl.
  split; [constructor; [|constructor]; split; unfold Qlt; simpl; lia|].
  split; [reflexivity|]. split; [lia|]. split; [lia|].
  intros _. split; unfold Qle; simpl; lia.
Qed.

Lemma well_formed_is_kept_witness :
  map_Forall (fun _ d => well_formed GroundPos d)
    (state_of (estimate 7 (0, 3) 2 30 warm)).
Proof.
  exact (well_formed_is_kept GroundPos get_real_world_pos norm_diff
           7 (0, 3) 2 30 warm warm_is_well_formed).
Defined.

Lemma reported_speed_is_in_range_witness :
  exists speed td',
    estimate 7 (0, 3) 1 30 warm = Returned speed td'
    /\ (speed = 0%Q \/ (5 <= speed <= 160)%Q).
Proof.
  destruct (estimate 7 (0, 3) 1 30 warm) as [speed td'|e td'] eqn:Hrun;
    [|vm_compute in Hrun; discriminate].
  exists speed, td'. split; [reflexivity|].
  exact (reported_speed_is_in_range GroundPos get_real_world_pos norm_diff
           7 (0, 3) 1 30 speed warm td' warm_is_well_formed Hrun).
Defined.

Lemma history_keeps_last_25_witness :
  exists speed d',
    estimate 7 (0, 3) 2 30 warm = Returned speed (<[7 := d']> warm)
    /\ speed_history d'
       = drop (length (speed_history warm_track) + 1 - 25)
           (speed_history warm_track ++ [4320 # 40])
    /\ (length (speed_history d') <= 25)%nat
    /\ last (speed_history d') = Some (4320 # 40).
Proof.
  eapply (history_keeps_last_25
            GroundPos get_real_world_pos norm_diff 7 (0, 3) 2 30 _
            warm warm_track).
  - reflexivity.
  - simpl. lia.
  - vm_compute. reflexivity.
  - split; unfold Qlt; simpl; lia.
  - simpl. lia.
Defined.

Lemma zero_frame_rate_raises_witness :
  estimate 7 (0, 3) 2 0 warm = Raised ZeroDivisionError warm.
Proof.
  apply (zero_frame_rate_raises GroundPos get_real_world_pos norm_diff
           7 (0, 3) 2 0 warm warm_track).
  - reflexivity.
  - simpl. lia.
  - reflexivity.
Defined.

Lemma other_tracks_are_untouched_witness :
  state_of (estimate 7 (0, 3) 2 30 warm) !! 8 = warm !! 8.
Proof.
  apply (other_tracks_are_untouched GroundPos get_real_world_pos norm_diff
           7 8 (0, 3) 2 30 warm).
  lia.
Defined.

Lemma stationary_sample_is_rejected_witness :
  exists speed d',
    estimate 7 (0, 1) 2 30 warm = Returned speed (<[7 := d']> warm)
    /\ speed_history d' = speed_history warm_track
    /\ current_speed d' = current_speed warm_track
    /\ hits d' = hits warm_track
    /\ stable_frames d' = stable_frames warm_track
    /\ last_frame d' = 2.
Proof.
  apply (stationary_sample_is_rejected
           GroundPos get_real_world_pos norm_diff 7 (0, 1) 2 30
           warm warm_track).
  - reflexivity.
  - simpl. lia.
  - unfold Qeq. simpl. lia.
  - reflexivity.
Defined.

Lemma new_track_returns_zero_witness :
  estimate 9 (0, 4) 5 30 warm
  = Returned 0%Q
      (<[9 := mkTrack GroundPos 5 (get_real_world_pos (0, 4)) [] 0 0 0]> warm).
Proof.
  apply (new_track_returns_zero GroundPos get_real_world_pos norm_diff
           9 (0, 4) 5 30 warm).
  reflexivity.
Defined.

Lemma fresh_frame_is_gated_witness :
  exists speed td' d',
    estimate 7 (0, 3) 2 30 warm = Returned speed td'
    /\ td' !! 7 = Some d'
    /\ (stable_frames d' < 15 \/ hits d' < 8 -> speed = 0%Q).
Proof.
  destruct (estimate 7 (0, 3) 2 30 warm) as [speed td'|e td'] eqn:Hrun;
    [|vm_compute in Hrun; discriminate].
  destruct (fresh_frame_is_gated GroundPos get_real_world_pos norm_diff
              7 (0, 3) 2 30 speed warm td' warm_track eq_refl
              ltac:(simpl; lia) Hrun)
    as (d' & Hd' & Hgate).
  exists speed, td', d'. split; [reflexivity|]. split; assumption.
Defined.

Lemma counters_never_decrease_witness :
  exists d',
    state_of (estimate 7 (0, 3) 2 30 warm) !! 7 = Some d'
    /\ stable_frames warm_track <= stable_frames d'
    /\ hits warm_track <= hits d'.
Proof.
  exact (counters_never_decrease GroundPos get_real_world_pos norm_diff
           7 7 (0, 3) 2 30 warm warm_track eq_refl).
Defined.

Lemma stabilised_track_reports_speed_witness :
  exists speed td',
    estimate 7 (0, 21) 21 30 cruising = Returned speed td'
    /\ (5 <= speed)%Q
    /\ exists d', td' !! 7 = Some d' /\ stabilised GroundPos d'.
Proof.
  destruct (estimate 7 (0, 21) 21 30 cruising) as [speed td'|e td'] eqn:Hrun;
    [|vm_compute in Hrun; discriminate].
  exists speed, td'. split; [reflexivity|].
  apply (stabilised_track_reports_speed GroundPos get_real_world_pos norm_diff
           7 (0, 21) 21 30 speed cruising td' cruising_track).
  - reflexivity.
  - split; [repeat constructor|]. intros _. unfold Qle. simpl. lia.
  - split; simpl; lia.
  - exact Hrun.
Defined.

End Runs.

End SpeedFacts.

(** * Properties of the plate reader *)

Module AlprFacts.

Import ALPR.

Lemma clean_plate_chars (raw : string) :
  all_plate_chars (_clean_plate_text raw) = true.
Proof.
  induction raw as [|c rest IH]; simpl; [reflexivity|].
  destruct (is_plate_char (upper c)) eqn:E; simpl; [|exact IH].
  rewrite E, IH. reflexivity.
Qed.

Lemma truthy_Some (t : string) : truthy (Some t) = true <-> t <> EmptyString.
Proof.
  simpl. rewrite negb_true_iff. apply String.eqb_neq.
Qed.

Lemma plate_char_is_upper (c : ascii) :
  is_plate_char c = true -> upper c = c.
Proof.
  unfold is_plate_char, upper. intros H.
  destruct (Nat.leb_spec 97 (nat_of_ascii c)) as [Hlo|_]; [|reflexivity].
  destruct (Nat.leb_spec (nat_of_ascii c) 122) as [Hhi|_]; [|reflexivity].
  exfalso. apply orb_true_iff in H.
  destruct H as [H|H]; apply andb_true_iff in H; destruct H as [_ H];
    apply Nat.leb_le in H; lia.
Qed.

Lemma clean_of_clean (s : string) :
  all_plate_chars s = true -> _clean_plate_text s = s.
Proof.
  induction s as [|c rest IH]; simpl; [reflexivity|].
  intros H. apply andb_true_iff in H. destruct H as [Hc Hrest].
  rewrite (plate_char_is_upper c Hc), Hc, (IH Hrest). reflexivity.
Qed.

(** X11.  Cleaning a plate text twice is cleaning it once: a cleaned text is
    left as it is. *)
Theorem clean_plate_text_is_idempotent (raw : string) :
  _clean_plate_text (_clean_plate_text raw) = _clean_plate_text raw.
Proof. apply clean_of_clean, clean_plate_chars. Qed.

(** The loop of [_fallback_ocr], from any point of it: the text kept at the
    end is the one held so far, no later reading being both long enough and
    of higher confidence, or it is the cleaned text of such a reading. *)
Lemma best_reading_spec
    (ocr_results : list (string * Q)) (best_text : option string)
    (best_conf : Q) :
  (best_reading ocr_results best_text best_conf = best_text
   /\ forall raw conf, (raw, conf) ∈ ocr_results ->
        (5 <= String.length (_clean_plate_text raw))%nat ->
        (conf <= best_conf)%Q)
  \/ exists raw conf,
       (raw, conf) ∈ ocr_results
       /\ best_reading ocr_results best_text best_conf
          = Some (_clean_plate_text raw)
       /\ (5 <= String.length (_clean_plate_text raw))%nat
       /\ (best_conf < conf)%Q
       /\ forall raw' conf', (raw', conf') ∈ ocr_results ->
            (5 <= String.length (_clean_plate_text raw'))%nat ->
            (conf' <= conf)%Q.
Proof.
  revert best_text best_conf.
  induction ocr_results as [|[raw conf] rest IH]; intros best_text best_conf.
  - left. split; [reflexivity|]. intros raw conf H. inversion H.
  - cbn [best_reading].
    destruct ((5 <=? String.length (_clean_plate_text raw))%nat
              && Py.Qltb best_conf conf) eqn:E.
    + apply andb_true_iff in E. destruct E as [Hlen Hconf].
      apply Nat.leb_le in Hlen. apply SpeedFacts.Qltb_lt in Hconf.
      right.
      destruct (IH (Some (_clean_plate_text raw)) conf)
        as [[Heq Hmax]|(raw1 & conf1 & Hin & Heq & Hlen1 & Hlt & Hmax)].
      * exists raw, conf. split; [left|]. split; [exact Heq|].
        split; [exact Hlen|]. split; [exact Hconf|].
        intros raw' conf' Hin' Hlen'. apply elem_of_cons in Hin'.
        destruct Hin' as [Hhd|Htl].
        -- injection Hhd as -> ->. apply Qle_refl.
        -- exact (Hmax raw' conf' Htl Hlen').
      * exists raw1, conf1. split; [right; exact Hin|]. split; [exact Heq|].
        split; [exact Hlen1|].
        split; [eapply Qlt_trans; [exact Hconf|exact Hlt]|].
        intros raw' conf' Hin' Hlen'. apply elem_of_cons in Hin'.
        destruct Hin' as [Hhd|Htl].
        -- injection Hhd as -> ->. apply Qlt_le_weak. exact Hlt.
        -- exact (Hmax raw' conf' Htl Hlen').
    + assert (Hhead : (5 <= String.length (_clean_plate_text raw))%nat ->
                      (conf <= best_conf)%Q).
      { intros Hlen. apply Nat.leb_le in Hlen. rewrite Hlen in E.
        simpl in E. apply SpeedFacts.Qltb_ge in E. exact E. }
      destruct (IH best_text best_conf)
        as [[Heq Hmax]|(raw1 & conf1 & Hin & Heq & Hlen1 & Hlt & Hmax)].
      * left. split; [exact Heq|].
        intros raw' conf' Hin' Hlen'. apply elem_of_cons in Hin'.
        destruct Hin' as [Hhd|Htl].
        -- injection Hhd as -> ->. exact (Hhead Hlen').
        -- exact (Hmax raw' conf' Htl Hlen').
      * right. exists raw1, conf1. split; [right; exact Hin|].
        split; [exact Heq|]. split; [exact Hlen1|]. split; [exact Hlt|].
        intros raw' conf' Hin' Hlen'. apply elem_of_cons in Hin'.
        destruct Hin' as [Hhd|Htl].
        -- injection Hhd as -> ->.
           eapply Qle_trans; [exact (Hhead Hlen')|].
           apply Qlt_le_weak. exact Hlt.
        -- exact (Hmax raw' conf' Htl Hlen').
Qed.

(** X12.  The fallback keeps, among the readings whose cleaned text has at
    least 5 characters, one of the highest confidence, and that confidence
    is above 0; it keeps nothing exactly when no such reading has a
    confidence above 0. *)
Theorem fallback_keeps_most_confident_reading
    (ocr_results : list (string * Q)) :
  match best_reading ocr_results None 0 with
  | Some kept =>
      exists raw conf,
        (raw, conf) ∈ ocr_results
        /\ kept = _clean_plate_text raw
        /\ (5 <= String.length kept)%nat
        /\ (0 < conf)%Q
        /\ forall raw' conf', (raw', conf') ∈ ocr_results ->
             (5 <= String.length (_clean_plate_text raw'))%nat ->
             (conf' <= conf)%Q
  | None =>
      forall raw conf, (raw, conf) ∈ ocr_results ->
        (5 <= String.length (_clean_plate_text raw))%nat ->
        (conf <= 0)%Q
  end.
Proof.
  destruct (best_reading_spec ocr_results None 0)
    as [[Heq Hmax]|(raw & conf & Hin & Heq & Hlen & Hlt & Hmax)].
  - rewrite Heq. exact Hmax.
  - rewrite Heq. exists raw, conf. repeat split; assumption.
Qed.

Section Facts.

Variable Pixel : Type.
Variable model_loaded : bool.
Variable plate_model : Image Pixel -> list (list Box).
Variable reader : option (Image Pixel -> list (string * Q)).

Abbreviation St := (St Pixel).
Abbreviation M := (M Pixel).
Abbreviation readtext := (readtext Pixel reader).
Abbreviation _fallback_ocr := (_fallback_ocr Pixel reader).
Abbreviation scan_boxes := (scan_boxes Pixel reader).
Abbreviation scan_results := (scan_results Pixel reader).
Abbreviation find_plate := (find_plate Pixel plate_model reader).
Abbreviation detect_and_read :=
  (detect_and_read Pixel model_loaded plate_model reader).
Abbreviation resolved := (resolved Pixel).
Abbreviation keeps_cache := (keeps_cache Pixel).
Abbreviation clean_cache := (clean_cache Pixel).
Abbreviation after_calls :=
  (after_calls Pixel model_loaded plate_model reader).

Lemma keeps_cache_ret {A : Type} (a : A) : keeps_cache (ret Pixel a).
Proof. intros st. reflexivity. Qed.

Lemma keeps_cache_bind {A B : Type} (m : M A) (k : A -> M B) :
  keeps_cache m -> (forall a, keeps_cache (k a)) -> keeps_cache (bind Pixel m k).
Proof.
  intros Hm Hk st. unfold bind. specialize (Hm st).
  destruct (m st) as [a st'|e st']; simpl in *; [|exact Hm].
  rewrite Hk. exact Hm.
Qed.

Lemma keeps_cache_log (c : call Pixel) : keeps_cache (log Pixel c).
Proof. intros st. reflexivity. Qed.

Lemma keeps_cache_readtext (img : Image Pixel) : keeps_cache (readtext img).
Proof.
  unfold ALPR.readtext. destruct reader as [ocr|].
  - apply keeps_cache_bind; [apply keeps_cache_log|].
    intros _. apply keeps_cache_ret.
  - intros st. reflexivity.
Qed.

Lemma keeps_cache_fallback (img : Image Pixel) : keeps_cache (_fallback_ocr img).
Proof.
  unfold ALPR._fallback_ocr. destruct reader as [ocr|] eqn:E; [|apply keeps_cache_ret].
  destruct (size Pixel _ =? 0); [apply keeps_cache_ret|].
  apply keeps_cache_bind.
  - pose proof (keeps_cache_readtext) as H. unfold ALPR.readtext in H.
    rewrite E in H. apply H.
  - intros rs. destruct (truthy _); apply keeps_cache_ret.
Qed.

Lemma keeps_cache_scan_boxes (img : Image Pixel) (boxes : list Box) :
  keeps_cache (scan_boxes img boxes).
Proof.
  induction boxes as [|[[[x1 y1] x2] y2] rest IH]; simpl.
  - apply keeps_cache_ret.
  - destruct (size Pixel _ =? 0); [exact IH|].
    apply keeps_cache_bind; [apply keeps_cache_readtext|].
    intros [|[t c] l]; [exact IH|].
    destruct (Py.Qltb _ _); [apply keeps_cache_ret|exact IH].
Qed.

Lemma keeps_cache_scan_results
    (img : Image Pixel) (results : list (list Box)) (best : option string) :
  keeps_cache (scan_results img results best).
Proof.
  revert best. induction results as [|boxes rest IH]; intros best; simpl.
  - apply keeps_cache_ret.
  - apply keeps_cache_bind; [apply keeps_cache_scan_boxes|].
    intros found. apply IH.
Qed.

Lemma keeps_cache_find_plate (img : Image Pixel) : keeps_cache (find_plate img).
Proof.
  unfold ALPR.find_plate.
  apply keeps_cache_bind.
  - apply keeps_cache_bind; [apply keeps_cache_log|].
    intros _. apply keeps_cache_ret.
  - intros results. apply keeps_cache_bind; [apply keeps_cache_scan_results|].
    intros found.
    destruct (_ || _); [apply keeps_cache_fallback|apply keeps_cache_ret].
Qed.

Lemma keeps_cache_returned {A : Type} (m : M A) (st st' : St) (a : A) :
  keeps_cache m -> m st = Returned a st' -> plate_cache st' = plate_cache st.
Proof.
  intros Hm Hrun. specialize (Hm st). rewrite Hrun in Hm. exact Hm.
Qed.

(** What the loop of [_fallback_ocr] keeps is a cleaned text. *)
Lemma best_reading_clean
    (ocr_results : list (string * Q)) (best_text : option string)
    (best_conf : Q) (t : string) :
  best_reading ocr_results best_text best_conf = Some t ->
  best_text = Some t \/ exists raw, t = _clean_plate_text raw.
Proof.
  revert best_text best_conf.
  induction ocr_results as [|[raw conf] rest IH]; intros best_text best_conf;
    simpl.
  - intros ->. left. reflexivity.
  - destruct (_ && _).
    + intros H. apply IH in H. destruct H as [H|H]; [|right; exact H].
      right. exists raw. congruence.
    + apply IH.
Qed.

Lemma fallback_clean (img : Image Pixel) (st st' : St) (t : string) :
  _fallback_ocr img st = Returned (Some t) st' ->
  exists raw, t = _clean_plate_text raw.
Proof.
  unfold ALPR._fallback_ocr. destruct reader as [ocr|]; [|discriminate].
  destruct (size Pixel _ =? 0); [discriminate|].
  unfold ALPR.readtext, bind, log, ret.
  destruct (truthy _) eqn:Ht; [|discriminate].
  intros H. injection H as H _.
  apply best_reading_clean in H. destruct H as [H|H]; [discriminate|exact H].
Qed.

Lemma clean_is_not_sentinel (raw : string) :
  _clean_plate_text raw <> "Scanning..."%string
  /\ _clean_plate_text raw <> "Unknown"%string.
Proof.
  pose proof (clean_plate_chars raw) as H.
  split; intros E; rewrite E in H; discriminate.
Qed.

(** A search that ends never ends on the sentinel. *)
Lemma find_plate_not_sentinel
    (img : Image Pixel) (st st' : St) (r : option string) :
  find_plate img st = Returned r st' -> r <> Some "Scanning..."%string.
Proof.
  unfold ALPR.find_plate, run_plate_model, bind, log, ret.
  destruct (scan_results _ _ _ _) as [found st1|e st1]; [|discriminate].
  destruct (negb (truthy found) || is_text found "Scanning...") eqn:E.
  - intros Hf ->. apply fallback_clean in Hf. destruct Hf as [raw Hraw].
    symmetry in Hraw. apply clean_is_not_sentinel in Hraw. exact Hraw.
  - intros H. injection H as -> _. intros ->.
    apply orb_false_iff in E. destruct E as [_ E]. discriminate.
Qed.

(** A resolved plate is answered from the cache: the state, and with it the
    log of calls to the engines, is unchanged. *)
Lemma resolved_is_answered_from_cache
    (img : Image Pixel) (track_id : Z) (now : Q) (st : St) (t : string) :
  resolved st track_id t ->
  detect_and_read img track_id now st = Returned (Some t) st.
Proof.
  intros (e & He & <- & Hne & Hnu).
  unfold ALPR.detect_and_read, cache_answer. rewrite He.
  apply String.eqb_neq in Hne, Hnu. rewrite Hne, Hnu. reflexivity.
Qed.

(** X13.  A call that returns the sentinel, or [None], has written nothing
    to the cache: neither a text nor the time of the attempt. *)
Theorem unresolved_call_leaves_cache
    (img : Image Pixel) (track_id : Z) (now : Q) (st st' : St)
    (r : option string) :
  detect_and_read img track_id now st = Returned r st' ->
  r = None \/ r = Some "Scanning..."%string ->
  plate_cache st' = plate_cache st.
Proof.
  unfold ALPR.detect_and_read.
  destruct (cache_answer _ _ _ _) as [c|].
  { intros H _. injection H as _ <-. reflexivity. }
  destruct model_loaded; cbn [negb]; cbv beta iota.
  - unfold bind at 1.
    destruct (find_plate img st) as [best st1|e st1] eqn:Hf; [|discriminate].
    pose proof (keeps_cache_returned _ _ _ _ (keeps_cache_find_plate img) Hf)
      as Hst1.
    apply find_plate_not_sentinel in Hf.
    destruct (truthy best) eqn:Ht; unfold bind, store, ret.
    + intros H [Hr|Hr]; injection H as <- _; subst best;
        [discriminate|contradiction].
    + intros H _. injection H as _ <-. exact Hst1.
  - intros H _. exact (keeps_cache_returned _ _ _ _ (keeps_cache_fallback img) H).
Qed.

(** With the plate model loaded, a text returned by a call is in the cache
    when the call ends. *)
Lemma loaded_success_is_cached
    (img : Image Pixel) (track_id : Z) (now : Q) (st st' : St) (t : string) :
  model_loaded = true ->
  detect_and_read img track_id now st = Returned (Some t) st' ->
  t <> EmptyString -> t <> "Scanning..."%string -> t <> "Unknown"%string ->
  resolved st' track_id t.
Proof.
  intros Hloaded. unfold ALPR.detect_and_read. rewrite Hloaded.
  cbn [negb]; cbv beta iota. unfold cache_answer.
  destruct (plate_cache st !! track_id) as [data|] eqn:Hd.
  - destruct (negb (text data =? EmptyString)%string
              && negb (text data =? "Unknown")%string) eqn:E.
    { intros H Hne _ Hnu. injection H as <- <-.
      exists data. repeat split; assumption. }
    destruct (Py.Qltb _ _).
    { intros H Hne _ Hnu. injection H as <- <-.
      exists data. repeat split; assumption. }
    unfold bind at 1.
    destruct (find_plate img st) as [best st1|e st1]; [|discriminate].
    destruct (truthy best) eqn:Ht; unfold bind, store, ret.
    + intros H Hne _ Hnu. injection H as -> <-. simpl.
      eexists. split; [apply lookup_insert_eq|]. repeat split; assumption.
    + intros H _ Hns _. injection H as <-. contradiction.
  - unfold bind at 1.
    destruct (find_plate img st) as [best st1|e st1]; [|discriminate].
    destruct (truthy best) eqn:Ht; unfold bind, store, ret.
    + intros H Hne _ Hnu. injection H as -> <-. simpl.
      eexists. split; [apply lookup_insert_eq|]. repeat split; assumption.
    + intros H _ Hns _. injection H as <-. contradiction.
Qed.

(** A call for one track writes no entry of another. *)
Lemma other_track_entry_untouched
    (img : Image Pixel) (track_id other : Z) (now : Q) (st : St) :
  other <> track_id ->
  plate_cache (state_of (detect_and_read img other now st)) !! track_id
  = plate_cache st !! track_id.
Proof.
  intros Hne. unfold ALPR.detect_and_read.
  destruct (cache_answer _ _ _ _) as [c|]; [reflexivity|].
  destruct model_loaded; cbn [negb]; cbv beta iota.
  - unfold bind at 1.
    pose proof (keeps_cache_find_plate img st) as Hst1.
    destruct (find_plate img st) as [best st1|e st1]; simpl in Hst1;
      [|simpl; rewrite Hst1; reflexivity].
    destruct (truthy best); unfold bind, store, ret; simpl.
    + rewrite lookup_insert_ne by exact Hne. rewrite Hst1. reflexivity.
    + rewrite Hst1. reflexivity.
  - rewrite keeps_cache_fallback. reflexivity.
Qed.

(** Once resolved, a plate stays resolved through every later call, whatever
    the track the call is for. *)
Lemma resolved_is_preserved
    (img : Image Pixel) (track_id other : Z) (now : Q) (st : St) (t : string) :
  resolved st track_id t ->
  resolved (state_of (detect_and_read img other now st)) track_id t.
Proof.
  intros Hres. destruct (decide (other = track_id)) as [->|Hne].
  - rewrite (resolved_is_answered_from_cache img track_id now st t Hres).
    exact Hres.
  - destruct Hres as (e & He & Ht). exists e. split; [|exact Ht].
    rewrite other_track_entry_untouched by exact Hne. exact He.
Qed.

(** X14.  Without a reader and without a plate model, a call never raises
    and leaves the state as it was. *)
Theorem no_reader_no_model_never_raises
    (img : Image Pixel) (track_id : Z) (now : Q) (st : St) :
  reader = None -> model_loaded = false ->
  exists r, detect_and_read img track_id now st = Returned r st.
Proof.
  intros Hr Hm. unfold ALPR.detect_and_read, ALPR._fallback_ocr.
  rewrite Hr, Hm.
  destruct (cache_answer _ _ _ _) as [c|]; eexists; reflexivity.
Qed.

Lemma scan_boxes_clean
    (img : Image Pixel) (boxes : list Box) (st st' : St) (t : string) :
  scan_boxes img boxes st = Returned (Some t) st' ->
  exists raw, t = _clean_plate_text raw.
Proof.
  revert st. induction boxes as [|[[[x1 y1] x2] y2] rest IH]; intros st; simpl.
  - discriminate.
  - destruct (size Pixel _ =? 0); [apply IH|].
    unfold bind at 1.
    destruct (readtext _ st) as [[|[raw c] l] st1|e st1];
      [apply IH| |discriminate].
    destruct (Py.Qltb _ _); [|apply IH].
    intros H. injection H as <- _. exists raw. reflexivity.
Qed.

Lemma scan_results_clean
    (img : Image Pixel) (results : list (list Box)) (best : option string)
    (st st' : St) (t : string) :
  scan_results img results best st = Returned (Some t) st' ->
  best = Some t \/ exists raw, t = _clean_plate_text raw.
Proof.
  revert best st.
  induction results as [|boxes rest IH]; intros best st; simpl.
  - intros H. injection H as -> _. left. reflexivity.
  - unfold bind at 1.
    destruct (scan_boxes img boxes st) as [found st1|e st1] eqn:Hb;
      [|discriminate].
    intros H. apply IH in H. destruct H as [H|H]; [|right; exact H].
    destruct found as [t'|]; [|left; exact H].
    injection H as ->. right. exact (scan_boxes_clean _ _ _ _ _ Hb).
Qed.

(** A text found by the search is a cleaned text. *)
Lemma find_plate_clean (img : Image Pixel) (st st' : St) (t : string) :
  find_plate img st = Returned (Some t) st' ->
  exists raw, t = _clean_plate_text raw.
Proof.
  unfold ALPR.find_plate, run_plate_model, bind, log, ret.
  destruct (scan_results _ _ _ _) as [found st1|e st1] eqn:Hs; [|discriminate].
  destruct (negb (truthy found) || is_text found "Scanning...").
  - apply fallback_clean.
  - intros H. injection H as -> _.
    apply scan_results_clean in Hs. destruct Hs as [Hs|Hs];
      [discriminate|exact Hs].
Qed.

(** A clean cache stays clean through a call. *)
Lemma detect_and_read_clean
    (img : Image Pixel) (track_id : Z) (now : Q) (st : St) :
  clean_cache st ->
  clean_cache (state_of (detect_and_read img track_id now st)).
Proof.
  intros Hst. unfold ALPR.detect_and_read.
  destruct (cache_answer _ _ _ _) as [c|]; [exact Hst|].
  destruct model_loaded; cbn [negb]; cbv beta iota.
  - unfold bind at 1.
    pose proof (keeps_cache_find_plate img st) as Hkeep.
    destruct (find_plate img st) as [best st1|e st1] eqn:Hf; simpl in Hkeep.
    + destruct (truthy best) eqn:Ht; unfold bind, store, ret, ALPR.clean_cache;
        simpl; [|rewrite Hkeep; exact Hst].
      destruct best as [t|]; [|discriminate].
      apply map_Forall_insert_2; [|rewrite Hkeep; exact Hst].
      simpl. split; [apply truthy_Some; exact Ht|].
      destruct (find_plate_clean _ _ _ _ Hf) as [raw ->].
      apply clean_plate_chars.
    + unfold ALPR.clean_cache. simpl. rewrite Hkeep. exact Hst.
  - unfold ALPR.clean_cache. rewrite keeps_cache_fallback. exact Hst.
Qed.

(** What the fallback returns is [None] or a plate text. *)
Lemma fallback_answer
    (img : Image Pixel) (st st' : St) (r : option string) :
  _fallback_ocr img st = Returned r st' ->
  r = None
  \/ exists t, r = Some t /\ t <> EmptyString /\ all_plate_chars t = true.
Proof.
  unfold ALPR._fallback_ocr.
  destruct reader as [ocr|];
    [|intros H; injection H as <- _; left; reflexivity].
  destruct (size Pixel _ =? 0);
    [intros H; injection H as <- _; left; reflexivity|].
  unfold ALPR.readtext, bind, log, ret.
  destruct (truthy _) eqn:Ht;
    [|intros H; injection H as <- _; left; reflexivity].
  intros H. injection H as <- _.
  destruct (best_reading _ None 0) as [t|] eqn:Hb; [|discriminate].
  right. exists t. split; [reflexivity|].
  split; [apply truthy_Some; exact Ht|].
  apply best_reading_clean in Hb.
  destruct Hb as [Hb|[raw ->]]; [discriminate|apply clean_plate_chars].
Qed.

(** On a clean cache a call answers [None], the sentinel, or a plate
    text. *)
Lemma detect_and_read_answer
    (img : Image Pixel) (track_id : Z) (now : Q) (st st' : St)
    (r : option string) :
  clean_cache st ->
  detect_and_read img track_id now st = Returned r st' ->
  r = None \/ r = Some "Scanning..."%string
  \/ exists t, r = Some t /\ t <> EmptyString /\ all_plate_chars t = true.
Proof.
  intros Hst. unfold ALPR.detect_and_read, cache_answer.
  assert (Hfresh :
    (if negb model_loaded then _fallback_ocr img
     else
       bind Pixel (find_plate img)
         (fun best_plate_text =>
            bind Pixel
              (if truthy best_plate_text
               then store Pixel track_id
                      {| text := default EmptyString best_plate_text;
                         last_attempt := now |}
               else ret Pixel tt)
              (fun _ => ret Pixel
                          (if truthy best_plate_text then best_plate_text
                           else Some "Scanning..."%string)))) st
    = Returned r st' ->
    r = None \/ r = Some "Scanning..."%string
    \/ exists t, r = Some t /\ t <> EmptyString /\ all_plate_chars t = true).
  { destruct model_loaded; cbn [negb]; cbv beta iota.
    - unfold bind at 1.
      destruct (find_plate img st) as [best st1|e st1] eqn:Hf; [|discriminate].
      destruct (truthy best) eqn:Ht; unfold bind, store, ret.
      + intros H. injection H as <- _. destruct best as [t|]; [|discriminate].
        right. right. exists t. split; [reflexivity|].
        split; [apply truthy_Some; exact Ht|].
        destruct (find_plate_clean _ _ _ _ Hf) as [raw ->].
        apply clean_plate_chars.
      + intros H. injection H as <- _. right. left. reflexivity.
    - intros H. apply fallback_answer in H.
      destruct H as [H|H]; [left; exact H|right; right; exact H]. }
  destruct (plate_cache st !! track_id) as [data|] eqn:Hd; [|exact Hfresh].
  destruct (Hst _ _ Hd) as [Hne Hchars].
  destruct (_ && _).
  { intros H. injection H as <- _. right. right. exists (text data). auto. }
  destruct (Py.Qltb _ _); [|exact Hfresh].
  intros H. injection H as <- _. right. right. exists (text data). auto.
Qed.

(** X16.  Every text a call writes to the cache is non-empty and made of the
    characters A-Z and 0-9: a clean cache stays clean. *)
Theorem clean_cache_is_kept
    (img : Image Pixel) (track_id : Z) (now : Q) (st : St) :
  clean_cache st ->
  clean_cache (state_of (detect_and_read img track_id now st)).
Proof.
  intros Hst. unfold ALPR.detect_and_read.
  destruct (cache_answer _ _ _ _) as [c|]; [exact Hst|].
  destruct model_loaded; cbn [negb]; cbv beta iota.
  - unfold bind at 1.
    pose proof (keeps_cache_find_plate img st) as Hkeep.
    destruct (find_plate img st) as [best st1|e st1] eqn:Hf; simpl in Hkeep.
    + destruct (truthy best) eqn:Ht; unfold bind, store, ret, ALPR.clean_cache;
        simpl; [|rewrite Hkeep; exact Hst].
      destruct best as [t|]; [|discriminate].
      apply map_Forall_insert_2; [|rewrite Hkeep; exact Hst].
      simpl. split; [apply truthy_Some; exact Ht|].
      destruct (find_plate_clean _ _ _ _ Hf) as [raw ->].
      apply clean_plate_chars.
    + unfold ALPR.clean_cache. simpl. rewrite Hkeep. exact Hst.
  - unfold ALPR.clean_cache. rewrite keeps_cache_fallback. exact Hst.
Qed.

(** X17.  In a clean cache every entry is a resolved plate: a call for its
    track returns the cached text and touches neither the cache nor the
    engines, whatever the time of the last attempt. *)
Theorem clean_cache_answers_every_entry
    (img : Image Pixel) (track_id : Z) (now : Q) (st : St)
    (e : PlateEntry) :
  clean_cache st ->
  plate_cache st !! track_id = Some e ->
  detect_and_read img track_id now st = Returned (Some (text e)) st.
Proof.
  intros Hst He. destruct (Hst _ _ He) as [Hne Hchars].
  apply resolved_is_answered_from_cache.
  exists e. repeat split; [exact He|exact Hne|].
  intros E. rewrite E in Hchars. discriminate.
Qed.

(** X18.  With the plate model loaded, a text returned by a call, other
    than the sentinel, is returned by every later call for the track,
    whatever calls come in between, and those later calls reach neither the
    cache nor the engines. *)
Theorem resolved_plate_is_durable_with_plate_model
    (img img' : Image Pixel) (track_id : Z) (now now' : Q) (st st1 : St)
    (t : string) (between : list (Image Pixel * Z * Q)) :
  model_loaded = true ->
  detect_and_read img track_id now st = Returned (Some t) st1 ->
  t <> EmptyString -> t <> "Scanning..."%string -> t <> "Unknown"%string ->
  detect_and_read img' track_id now' (after_calls between st1)
  = Returned (Some t) (after_calls between st1).
Proof.
  intros Hloaded Hrun Hne Hns Hnu.
  apply resolved_is_answered_from_cache.
  pose proof (loaded_success_is_cached _ _ _ _ _ _ Hloaded Hrun Hne Hns Hnu)
    as Hres.
  clear Hrun. revert st1 Hres.
  induction between as [|[[i o] n] rest IH]; intros st1 Hres; simpl.
  - exact Hres.
  - apply IH. apply resolved_is_preserved. exact Hres.
Qed.

(** X19.  With the plate model loaded, a call that returns, returns a
    string: [None] comes only from the path without the plate model. *)
Theorem loaded_call_returns_a_string
    (img : Image Pixel) (track_id : Z) (now : Q) (st st' : St)
    (r : option string) :
  model_loaded = true ->
  detect_and_read img track_id now st = Returned r st' ->
  is_Some r.
Proof.
  intros Hloaded. unfold ALPR.detect_and_read, cache_answer. rewrite Hloaded.
  cbn [negb]; cbv beta iota.
  assert (Hfresh :
    (bind Pixel (find_plate img)
       (fun best_plate_text =>
          bind Pixel
            (if truthy best_plate_text
             then store Pixel track_id
                    {| text := default EmptyString best_plate_text;
                       last_attempt := now |}
             else ret Pixel tt)
            (fun _ => ret Pixel
                        (if truthy best_plate_text then best_plate_text
                         else Some "Scanning..."%string)))) st
    = Returned r st' -> is_Some r).
  { unfold bind at 1.
    destruct (find_plate img st) as [best st1|e st1]; [|discriminate].
    destruct (truthy best) eqn:Ht; unfold bind, store, ret.
    - intros H. injection H as <- _.
      destruct best; [eexists; reflexivity|discriminate].
    - intros H. injection H as <- _. eexists; reflexivity. }
  destruct (plate_cache st !! track_id) as [data|]; [|exact Hfresh].
  destruct (_ && _).
  { intros H. injection H as <- _. eexists; reflexivity. }
  destruct (Py.Qltb _ _); [|exact Hfresh].
  intros H. injection H as <- _. eexists; reflexivity.
Qed.

(** Without a reader, the first candidate box of the plate model with a
    non-empty crop ends the call on the attribute lookup, after the call to
    the plate model. *)
Lemma detect_and_read_without_reader
    (img : Image Pixel) (track_id : Z) (now : Q) (st : St)
    (x1 y1 x2 y2 : Z) (boxes : list Box) (results : list (list Box)) :
  reader = None -> model_loaded = true ->
  plate_cache st !! track_id = None ->
  plate_model img = ((x1, y1, x2, y2) :: boxes) :: results ->
  size Pixel (crop Pixel img y1 y2 x1 x2) <> 0 ->
  detect_and_read img track_id now st
  = Raised AttributeError
      (mkSt (plate_cache st) (calls st ++ [PlateModelCall img])).
Proof.
  intros Hr Hm Hc Hpm Hsize.
  unfold ALPR.detect_and_read, cache_answer. rewrite Hc, Hm.
  cbn [negb]; cbv beta iota.
  unfold ALPR.find_plate, run_plate_model, bind, log, ret. rewrite Hpm.
  cbn [ALPR.scan_results ALPR.scan_boxes]. unfold bind.
  apply Z.eqb_neq in Hsize. rewrite Hsize.
  unfold ALPR.readtext. rewrite Hr. reflexivity.
Qed.

End Facts.

Section Runs.

Import Fixture.

(** C1, on the code.  With both engines at hand, a plate-less image of track
    7 is read at time 100: the plate model and the reader are called, the
    sentinel is returned and the cache stays empty.  One second later the
    same call runs both engines again. *)
Lemma failed_attempt_is_retried_within_two_seconds :
  exists st1 st2,
    detect_and_read Pixel true fake_plate_model (Some fake_ocr)
      (solid 0) 7 100 fresh_reader
    = Returned (Some "Scanning..."%string) st1
    /\ plate_cache st1 = ∅
    /\ calls st1 = [PlateModelCall (solid 0); ReadtextCall (drop 4 (solid 0))]
    /\ detect_and_read Pixel true fake_plate_model (Some fake_ocr)
         (solid 0) 7 101 st1
       = Returned (Some "Scanning..."%string) st2
    /\ calls st2
       = calls st1
           ++ [PlateModelCall (solid 0); ReadtextCall (drop 4 (solid 0))].
Proof.
  eexists _, _. split; [vm_compute; reflexivity|].
  split; [reflexivity|]. split; [reflexivity|].
  split; [vm_compute; reflexivity|]. reflexivity.
Qed.

(** C2, on the code.  Without the plate model, the reader returns ABC1234
    for track 7 and the cache stays empty; the next call for track 7, on
    another image, calls the reader again and returns XYZ9876. *)
Lemma plate_is_not_kept_without_plate_model :
  exists st1 st2,
    detect_and_read Pixel false fake_plate_model (Some fake_ocr)
      (solid 1) 7 100 fresh_reader
    = Returned (Some "ABC1234"%string) st1
    /\ plate_cache st1 = ∅
    /\ detect_and_read Pixel false fake_plate_model (Some fake_ocr)
         (solid 2) 7 101 st1
       = Returned (Some "XYZ9876"%string) st2
    /\ calls st2 = calls st1 ++ [ReadtextCall (drop 4 (solid 2))].
Proof.
  eexists _, _. split; [vm_compute; reflexivity|].
  split; [reflexivity|].
  split; [vm_compute; reflexivity|]. reflexivity.
Qed.

(** C7, on the code.  With the plate model loaded and no reader, a candidate
    box of the plate model leads to [self.reader.readtext] on [None]. *)
Lemma missing_reader_raises_on_plate_candidate :
  detect_and_read Pixel true fake_plate_model None (solid 3) 7 100 fresh_reader
  = Raised AttributeError (mkSt ∅ [PlateModelCall (solid 3)]).
Proof. vm_compute. reflexivity. Qed.

(** Without the plate model and without a reader the call returns [None],
    not the sentinel. *)
Lemma missing_reader_and_model_returns_none :
  detect_and_read Pixel false fake_plate_model None (solid 3) 7 100 fresh_reader
  = Returned None fresh_reader.
Proof. reflexivity. Qed.

Lemma unresolved_call_leaves_cache_witness :
  exists st',
    read_plate (solid 0) 7 100 fresh_reader
    = Returned (Some "Scanning..."%string) st'
    /\ plate_cache st' = plate_cache fresh_reader.
Proof.
  destruct (read_plate (solid 0) 7 100 fresh_reader) as [r st'|e st'] eqn:Hrun;
    [|vm_compute in Hrun; discriminate].
  assert (Hr : r = Some "Scanning..."%string)
    by (vm_compute in Hrun; congruence).
  subst r. exists st'. split; [reflexivity|].
  exact (unresolved_call_leaves_cache Pixel true fake_plate_model
           (Some fake_ocr) (solid 0) 7 100 fresh_reader st' _ Hrun
           (or_intror eq_refl)).
Defined.

Lemma no_reader_no_model_never_raises_witness :
  exists r,
    detect_and_read Pixel false fake_plate_model None (solid 3) 7 100
      fresh_reader
    = Returned r fresh_reader.
Proof.
  exact (no_reader_no_model_never_raises Pixel false fake_plate_model None
           (solid 3) 7 100 fresh_reader eq_refl eq_refl).
Defined.

Lemma clean_cache_is_kept_witness :
  clean_cache Pixel (state_of (read_plate (solid 1) 7 100 fresh_reader)).
Proof.
  apply (clean_cache_is_kept Pixel true fake_plate_model (Some fake_ocr)
           (solid 1) 7 100 fresh_reader).
  apply map_Forall_empty.
Defined.

Lemma resolved_reader_is_clean : clean_cache Pixel resolved_reader.
Proof.
  apply map_Forall_singleton. split; [discriminate|reflexivity].
Qed.

Lemma clean_cache_answers_every_entry_witness :
  read_plate (solid 2) 7 500 resolved_reader
  = Returned (Some "ABC1234"%string) resolved_reader.
Proof.
  exact (clean_cache_answers_every_entry Pixel true fake_plate_model
           (Some fake_ocr) (solid 2) 7 500 resolved_reader abc_entry
           resolved_reader_is_clean eq_refl).
Defined.

Lemma resolved_plate_is_durable_with_plate_model_witness :
  exists st1,
    read_plate (solid 1) 7 100 fresh_reader
    = Returned (Some "ABC1234"%string) st1
    /\ let later :=
         after_calls Pixel true fake_plate_model (Some fake_ocr)
           [(solid 2, 8, 101%Q); (solid 0, 7, 102%Q)] st1 in
       read_plate (solid 2) 7 200 later
       = Returned (Some "ABC1234"%string) later.
Proof.
  destruct (read_plate (solid 1) 7 100 fresh_reader) as [r st1|e st1] eqn:Hrun;
    [|vm_compute in Hrun; discriminate].
  assert (Hr : r = Some "ABC1234"%string)
    by (vm_compute in Hrun; congruence).
  subst r. exists st1. split; [reflexivity|]. cbv zeta.
  apply (resolved_plate_is_durable_with_plate_model Pixel true
           fake_plate_model (Some fake_ocr) (solid 1) (solid 2) 7 100 200
           fresh_reader st1 "ABC1234"
           [(solid 2, 8, 101%Q); (solid 0, 7, 102%Q)]).
  - reflexivity.
  - exact Hrun.
  - discriminate.
  - discriminate.
  - discriminate.
Defined.

Lemma loaded_call_returns_a_string_witness :
  exists r st',
    read_plate (solid 0) 7 100 fresh_reader = Returned r st' /\ is_Some r.
Proof.
  destruct (read_plate (solid 0) 7 100 fresh_reader) as [r st'|e st'] eqn:Hrun;
    [|vm_compute in Hrun; discriminate].
  exists r, st'. split; [reflexivity|].
  exact (loaded_call_returns_a_string Pixel true fake_plate_model
           (Some fake_ocr) (solid 0) 7 100 fresh_reader st' r eq_refl Hrun).
Defined.

End Runs.

End AlprFacts.

(** * Properties of the frame processor *)

Module ProcessorFacts.

Import SpeedEstimator ALPR Processor.

Section Facts.

Variable GroundPos : Type.
Variable get_real_world_pos : Z * Z -> GroundPos.
Variable norm_diff : GroundPos -> GroundPos -> Q.
Variable Pixel : Type.
Variable model_loaded : bool.
Variable plate_model : Image Pixel -> list (list Box).
Variable reader : option (Image Pixel -> list (string * Q)).
Variable detect_vehicles : Image Pixel -> option (list TrackedBox).
Variable names : Z -> string.
Variable draw : Image Pixel -> Box -> Z -> option string -> Q -> Image Pixel.
Variable encode : Image Pixel -> string.

Abbreviation VP := (VP GroundPos Pixel).
Abbreviation estimate_speed :=
  (estimate_speed GroundPos get_real_world_pos norm_diff).
Abbreviation detect_and_read :=
  (detect_and_read Pixel model_loaded plate_model reader).
Abbreviation process_box :=
  (process_box GroundPos get_real_world_pos norm_diff
     Pixel model_loaded plate_model reader names draw).
Abbreviation process_boxes :=
  (process_boxes GroundPos get_real_world_pos norm_diff
     Pixel model_loaded plate_model reader names draw).
Abbreviation process_frame_data :=
  (process_frame_data GroundPos get_real_world_pos norm_diff
     Pixel model_loaded plate_model reader detect_vehicles names draw encode).
Abbreviation plate_follows_read :=
  (plate_follows_read Pixel model_loaded plate_model reader).

(** The plate of a record is the one read for its box, surfaced; none was
    read when the crop is empty. *)
Lemma process_box_plate
    (frame frame' : Image Pixel) (frame_number : Z) (fps : Q) (annotate : bool)
    (tb : TrackedBox) (now : Q) (vp vp' : VP) (record : Detection) :
  process_box frame frame_number fps annotate tb now vp
    = Returned (record, frame') vp' ->
  (size Pixel (crop_of frame tb) <= 0 /\ license_plate record = None
     /\ alpr_reader vp' = alpr_reader vp)
  \/ (0 < size Pixel (crop_of frame tb)
      /\ exists read_plate,
           detect_and_read (crop_of frame tb) (tb_track_id tb) now
             (alpr_reader vp) = Returned read_plate (alpr_reader vp')
           /\ license_plate record = surfaced read_plate).
Proof.
  unfold Processor.process_box, crop_of.
  destruct (tb_box tb) as [[[x1 y1] x2] y2].
  destruct (estimate_speed _ _ _ _ _) as [speed est|e est]; [|discriminate].
  destruct (Z.ltb_spec 0 (size Pixel (crop Pixel frame y1 y2 x1 x2)))
    as [Hpos|Hemp].
  - destruct (detect_and_read _ _ _ _) as [read_plate alpr|e alpr];
      [|discriminate].
    intros H. injection H as <- _ <-. right. split; [exact Hpos|].
    exists read_plate. split; reflexivity.
  - intros H. injection H as <- _ <-. left. repeat split. exact Hemp.
Qed.

Lemma plate_text_not_sentinel (t : string) :
  all_plate_chars t = true -> t <> "Scanning..."%string.
Proof. intros H ->. discriminate. Qed.

(** The plate of the record of a box, the reader's cache being clean: it
    follows the answer of the reader, it is not the sentinel, and the cache
    is left clean. *)
Lemma process_box_plate_follows
    (frame frame' : Image Pixel) (frame_number : Z) (fps : Q) (annotate : bool)
    (tb : TrackedBox) (now : Q) (vp vp' : VP) (record : Detection) :
  clean_cache Pixel (alpr_reader vp) ->
  process_box frame frame_number fps annotate tb now vp
    = Returned (record, frame') vp' ->
  plate_follows_read frame tb now (alpr_reader vp) record
  /\ license_plate record <> Some "Scanning..."%string
  /\ clean_cache Pixel (alpr_reader vp').
Proof.
  intros Hclean Hbox. apply process_box_plate in Hbox.
  destruct Hbox as [(Hemp & Hnone & Hsame)|(Hpos & read & Hread & Hplate)].
  - split; [left; split; assumption|]. split; [rewrite Hnone; discriminate|].
    rewrite Hsame. exact Hclean.
  - assert (Hclean' : clean_cache Pixel (alpr_reader vp')).
    { pose proof (AlprFacts.detect_and_read_clean Pixel model_loaded
                    plate_model reader (crop_of frame tb) (tb_track_id tb)
                    now (alpr_reader vp) Hclean) as H.
      rewrite Hread in H. exact H. }
    destruct (AlprFacts.detect_and_read_answer Pixel model_loaded plate_model
                reader _ _ _ _ _ _ Hclean Hread)
      as [->|[->|(t & -> & Hne & Hchars)]].
    + split; [|split; [rewrite Hplate; discriminate|exact Hclean']].
      right. split; [exact Hpos|]. eexists _, _. split; [exact Hread|].
      split; [intros _; exact Hplate|].
      intros t Ht. rewrite Hplate in Ht. discriminate.
    + split; [|split; [rewrite Hplate; discriminate|exact Hclean']].
      right. split; [exact Hpos|]. eexists _, _. split; [exact Hread|].
      split; [intros _; exact Hplate|].
      intros t Ht. rewrite Hplate in Ht. discriminate.
    + pose proof (plate_text_not_sentinel t Hchars) as Hns.
      assert (Hshown : surfaced (Some t) = Some t).
      { unfold surfaced, truthy, is_text.
        apply String.eqb_neq in Hne, Hns. rewrite Hne, Hns. reflexivity. }
      rewrite Hshown in Hplate.
      split; [|split; [rewrite Hplate; congruence|exact Hclean']].
      right. split; [exact Hpos|]. eexists _, _. split; [exact Hread|].
      split.
      * intros [Hu|Hu]; [discriminate|]. injection Hu as ->. contradiction.
      * intros t' Ht'. rewrite Hplate in Ht'. injection Ht' as <-.
        split; [reflexivity|]. split; assumption.
Qed.

(** The same along the loop: the record at position [i] follows the answer
    the reader gave for the box at position [i], asked in the frame and the
    state that the boxes before it have left. *)
Lemma process_boxes_plate_follows
    (boxes : list TrackedBox) (frame frame' : Image Pixel) (frame_number : Z)
    (fps : Q) (annotate : bool) (clock : nat -> Q) (vp vp' : VP)
    (detections : list Detection) :
  clean_cache Pixel (alpr_reader vp) ->
  process_boxes frame frame_number fps annotate boxes clock vp
    = Returned (detections, frame') vp' ->
  clean_cache Pixel (alpr_reader vp')
  /\ forall (i : nat) (record : Detection),
       detections !! i = Some record ->
       license_plate record <> Some "Scanning..."%string
       /\ exists tb records_i frame_i vp_i,
            boxes !! i = Some tb
            /\ process_boxes frame frame_number fps annotate (take i boxes)
                 clock vp
               = Returned (records_i, frame_i) vp_i
            /\ plate_follows_read frame_i tb (clock i) (alpr_reader vp_i)
                 record.
Proof.
  revert frame frame' clock vp vp' detections.
  induction boxes as [|tb rest IH];
    intros frame frame' clock vp vp' detections Hclean;
    cbn [Processor.process_boxes].
  - intros H. injection H as <- _ <-. split; [exact Hclean|].
    intros i record Hi. rewrite lookup_nil in Hi. discriminate.
  - destruct (process_box _ _ _ _ tb _ _) as [[record0 frame1] vp1|e vp1] eqn:Hb;
      [|discriminate].
    destruct (process_boxes frame1 _ _ _ rest _ vp1)
      as [[records frame2] vp2|e vp2] eqn:Hr; [|discriminate].
    intros H. injection H as <- <- <-.
    destruct (process_box_plate_follows _ _ _ _ _ _ _ _ _ _ Hclean Hb)
      as (Hfollow & Hns & Hclean1).
    destruct (IH _ _ _ _ _ _ Hclean1 Hr) as [Hclean2 Hrest].
    split; [exact Hclean2|].
    intros [|j] record Hi.
    + injection Hi as <-. split; [exact Hns|].
      exists tb, [], frame, vp. split; [reflexivity|].
      split; [reflexivity|exact Hfollow].
    + destruct (Hrest j record Hi)
        as (Hns' & tb' & records_j & frame_j & vp_j & Htb & Hrun & Hf).
      split; [exact Hns'|].
      exists tb', (record0 :: records_j), frame_j, vp_j.
      split; [exact Htb|]. split; [|exact Hf].
      cbn [take Processor.process_boxes]. rewrite Hb, Hrun. reflexivity.
Qed.

(** C9.  The reader's cache being clean, as every cache that the reader has
    filled from empty is, it is clean after the frame, and every record
    emitted by [process_frame_data] has a plate that follows the answer the
    reader gave for its box: null when the crop is empty or the answer is
    unresolved ([None] or the sentinel), and otherwise the plate text that
    the reader answered.  The sentinel is the plate of no record. *)
Theorem emitted_plate_is_null_or_resolved
    (frame : Image Pixel) (frame_number : Z) (fps : Q) (annotate : bool)
    (clock : nat -> Q) (vp vp' : VP)
    (detections : list Detection) (annotated : option string) :
  clean_cache Pixel (alpr_reader vp) ->
  process_frame_data frame frame_number fps annotate clock vp
    = Returned (detections, annotated) vp' ->
  clean_cache Pixel (alpr_reader vp')
  /\ forall (i : nat) (record : Detection),
       detections !! i = Some record ->
       license_plate record <> Some "Scanning..."%string
       /\ exists tb records_i frame_i vp_i,
            default [] (detect_vehicles frame) !! i = Some tb
            /\ process_boxes frame frame_number fps annotate
                 (take i (default [] (detect_vehicles frame))) clock vp
               = Returned (records_i, frame_i) vp_i
            /\ plate_follows_read frame_i tb (clock i) (alpr_reader vp_i)
                 record.
Proof.
  intros Hclean. unfold Processor.process_frame_data.
  destruct (process_boxes _ _ _ _ _ _ _) as [[records frame1] vp1|e vp1] eqn:Hr;
    [|discriminate].
  intros H. injection H as <- _ <-.
  exact (process_boxes_plate_follows _ _ _ _ _ _ _ _ _ _ Hclean Hr).
Qed.

(** C8, as the code has it.  A tracked box whose crop is empty leaves the
    plate reader untouched and gets a null plate, but its speed is estimated
    and its record emitted; the loop then goes on with the remaining boxes. *)
Theorem empty_crop_skips_plate_reading_only
    (frame : Image Pixel) (frame_number : Z) (fps : Q) (annotate : bool)
    (tb : TrackedBox) (rest : list TrackedBox) (clock : nat -> Q) (vp : VP) :
  size Pixel (crop_of frame tb) = 0 ->
  process_boxes frame frame_number fps annotate (tb :: rest) clock vp
  = match estimate_speed (tb_track_id tb) (bottom_center_of tb)
            frame_number fps (speed_estimator vp) with
    | Raised e est => Raised e (mkVP est (alpr_reader vp))
    | Returned speed est =>
        let record :=
          mkDetection (tb_track_id tb) (names (tb_cls_id tb)) (tb_conf tb)
            (coordinates_of tb) None speed in
        let frame' :=
          if annotate
          then draw frame (tb_box tb) (tb_track_id tb) None speed
          else frame in
        match process_boxes frame' frame_number fps annotate rest
                (fun i => clock (S i)) (mkVP est (alpr_reader vp)) with
        | Raised e vp'' => Raised e vp''
        | Returned (records, frame'') vp'' =>
            Returned (record :: records, frame'') vp''
        end
    end.
Proof.
  intros Hempty. cbn [Processor.process_boxes].
  unfold Processor.process_box, crop_of, bottom_center_of, coordinates_of in *.
  destruct (tb_box tb) as [[[x1 y1] x2] y2].
  destruct (estimate_speed _ _ _ _ _) as [speed est|e est]; [|reflexivity].
  rewrite Hempty. reflexivity.
Qed.

(** What a box that is processed to the end has done to the estimator: the
    call of lines 55-57, whose value is the speed of the record. *)
Lemma process_box_speed
    (frame frame' : Image Pixel) (frame_number : Z) (fps : Q) (annotate : bool)
    (tb : TrackedBox) (now : Q) (vp vp' : VP) (record : Detection) :
  process_box frame frame_number fps annotate tb now vp
    = Returned (record, frame') vp' ->
  estimate_speed (tb_track_id tb) (bottom_center_of tb) frame_number fps
    (speed_estimator vp)
  = Returned (speed record) (speed_estimator vp').
Proof.
  unfold Processor.process_box, bottom_center_of.
  destruct (tb_box tb) as [[[x1 y1] x2] y2].
  destruct (estimate_speed _ _ _ _ _) as [v est|e est]; [|discriminate].
  destruct (0 <? size Pixel _).
  - destruct (detect_and_read _ _ _ _) as [read_plate alpr|e alpr];
      [|discriminate].
    intros H. injection H as <- _ <-. reflexivity.
  - intros H. injection H as <- _ <-. reflexivity.
Qed.

(** The record of a box carries the id, class name, confidence and
    coordinates of the box. *)
Lemma process_box_fields
    (frame frame' : Image Pixel) (frame_number : Z) (fps : Q) (annotate : bool)
    (tb : TrackedBox) (now : Q) (vp vp' : VP) (record : Detection) :
  process_box frame frame_number fps annotate tb now vp
    = Returned (record, frame') vp' ->
  track_id record = tb_track_id tb
  /\ vehicle_type record = names (tb_cls_id tb)
  /\ confidence record = tb_conf tb
  /\ box_coordinates record = coordinates_of tb.
Proof.
  unfold Processor.process_box, coordinates_of.
  destruct (tb_box tb) as [[[x1 y1] x2] y2].
  destruct (estimate_speed _ _ _ _ _) as [v est|e est]; [|discriminate].
  destruct (0 <? size Pixel _).
  - destruct (detect_and_read _ _ _ _) as [read_plate alpr|e alpr];
      [|discriminate].
    intros H. injection H as <- _ _. repeat split.
  - intros H. injection H as <- _ _. repeat split.
Qed.

(** Inversion of a run of the loop that returns. *)
Lemma process_boxes_cons
    (tb : TrackedBox) (rest : list TrackedBox) (frame frame' : Image Pixel)
    (frame_number : Z) (fps : Q) (annotate : bool) (clock : nat -> Q)
    (vp vp' : VP) (detections : list Detection) :
  process_boxes frame frame_number fps annotate (tb :: rest) clock vp
    = Returned (detections, frame') vp' ->
  exists record records frame1 vp1,
    detections = record :: records
    /\ process_box frame frame_number fps annotate tb (clock O) vp
       = Returned (record, frame1) vp1
    /\ process_boxes frame1 frame_number fps annotate rest
         (fun i => clock (S i)) vp1
       = Returned (records, frame') vp'.
Proof.
  cbn [Processor.process_boxes].
  destruct (process_box _ _ _ _ tb _ _) as [[record frame1] vp1|e vp1] eqn:Hb;
    [|discriminate].
  destruct (process_boxes frame1 _ _ _ rest _ vp1)
    as [[records frame2] vp2|e vp2] eqn:Hr; [|discriminate].
  intros H. injection H as <- <- <-.
  exists record, records, frame1, vp1.
  split; [reflexivity|]. split; [reflexivity|exact Hr].
Qed.

(** X20.  A frame in which the detector tracks nothing gives no record and
    leaves the estimator and the plate reader as they were; the frame is
    encoded undrawn when annotation is asked for. *)
Theorem untracked_frame_gives_no_record
    (frame : Image Pixel) (frame_number : Z) (fps : Q) (annotate : bool)
    (clock : nat -> Q) (vp : VP) :
  detect_vehicles frame = None \/ detect_vehicles frame = Some [] ->
  process_frame_data frame frame_number fps annotate clock vp
  = Returned ([], if annotate then Some (encode frame) else None) vp.
Proof.
  intros [H|H]; unfold Processor.process_frame_data; rewrite H; reflexivity.
Qed.

(** X21.  A frame that is processed to the end gives one record per tracked
    box, in the order of the boxes, each with the track id, class name,
    confidence and coordinates of its box. *)
Theorem one_record_per_tracked_box
    (frame : Image Pixel) (frame_number : Z) (fps : Q) (annotate : bool)
    (clock : nat -> Q) (vp vp' : VP) (boxes : list TrackedBox)
    (detections : list Detection) (annotated : option string) :
  detect_vehicles frame = Some boxes ->
  process_frame_data frame frame_number fps annotate clock vp
    = Returned (detections, annotated) vp' ->
  Forall2
    (fun tb record =>
       track_id record = tb_track_id tb
       /\ vehicle_type record = names (tb_cls_id tb)
       /\ confidence record = tb_conf tb
       /\ box_coordinates record = coordinates_of tb)
    boxes detections.
Proof.
  intros Hdet. unfold Processor.process_frame_data. rewrite Hdet. simpl.
  destruct (process_boxes _ _ _ _ _ _ _) as [[records frame1] vp1|e vp1] eqn:Hr;
    [|discriminate].
  intros H. injection H as <- _ _. clear Hdet.
  revert frame clock vp records Hr.
  induction boxes as [|tb rest IH]; intros frame clock vp records Hr.
  - simpl in Hr. injection Hr as <- _ _. constructor.
  - apply process_boxes_cons in Hr.
    destruct Hr as (record & records' & frame2 & vp2 & -> & Hb & Hrest).
    constructor.
    + exact (process_box_fields _ _ _ _ _ _ _ _ _ _ Hb).
    + exact (IH _ _ _ _ Hrest).
Qed.

(** X22.  A frame processed on a well-formed estimator leaves it
    well-formed, and the speed of every record is 0 or within 5 and 160
    km/h. *)
Theorem frame_speeds_are_in_range
    (frame : Image Pixel) (frame_number : Z) (fps : Q) (annotate : bool)
    (clock : nat -> Q) (vp vp' : VP)
    (detections : list Detection) (annotated : option string) :
  map_Forall (fun _ d => well_formed GroundPos d) (speed_estimator vp) ->
  process_frame_data frame frame_number fps annotate clock vp
    = Returned (detections, annotated) vp' ->
  map_Forall (fun _ d => well_formed GroundPos d) (speed_estimator vp')
  /\ Forall (fun record =>
               speed record = 0%Q \/ (5 <= speed record <= 160)%Q)
       detections.
Proof.
  intros Hwf. unfold Processor.process_frame_data.
  generalize (default [] (detect_vehicles frame)). intros boxes.
  destruct (process_boxes _ _ _ _ _ _ _) as [[records frame1] vp1|e vp1] eqn:Hr;
    [|discriminate].
  intros H. injection H as <- _ <-.
  revert frame clock vp records Hwf Hr.
  induction boxes as [|tb rest IH]; intros frame0 clock vp records Hwf Hr.
  - simpl in Hr. injection Hr as <- _ <-. split; [exact Hwf|constructor].
  - apply process_boxes_cons in Hr.
    destruct Hr as (record & records' & frame2 & vp2 & -> & Hb & Hrest).
    apply process_box_speed in Hb.
    destruct (SpeedFacts.estimate_speed_well_formed GroundPos
                get_real_world_pos norm_diff (tb_track_id tb)
                (bottom_center_of tb) frame_number fps _ Hwf)
      as [Hwf2 Hrange].
    rewrite Hb in Hwf2. simpl in Hwf2. specialize (Hrange _ _ Hb).
    destruct (IH _ _ _ _ Hwf2 Hrest) as [Hwf' Hall].
    split; [exact Hwf'|]. constructor; assumption.
Qed.

(** The loop at a frame number beyond the last frame of the tracks of its
    boxes, the boxes carrying distinct track ids: a record has a nonzero
    speed only if its track is past the grace period when the loop ends, and
    the tracks of no box are as they were. *)
Lemma process_boxes_grace
    (boxes : list TrackedBox) (frame frame' : Image Pixel) (frame_number : Z)
    (fps : Q) (annotate : bool) (clock : nat -> Q) (vp vp' : VP)
    (detections : list Detection) :
  NoDup (tb_track_id <$> boxes) ->
  (forall tb d, tb ∈ boxes ->
     speed_estimator vp !! tb_track_id tb = Some d ->
     last_frame d < frame_number) ->
  process_boxes frame frame_number fps annotate boxes clock vp
    = Returned (detections, frame') vp' ->
  Forall
    (fun record =>
       speed record = 0%Q
       \/ exists d, speed_estimator vp' !! track_id record = Some d
            /\ stabilised GroundPos d)
    detections
  /\ forall tid, tid ∉ (tb_track_id <$> boxes) ->
       speed_estimator vp' !! tid = speed_estimator vp !! tid.
Proof.
  intros Hnodup. revert frame clock vp detections.
  induction boxes as [|tb rest IH]; intros frame clock vp records Hlater Hr.
  - simpl in Hr. injection Hr as <- _ <-. split; [constructor|reflexivity].
  - apply process_boxes_cons in Hr.
    destruct Hr as (record & records' & frame2 & vp2 & -> & Hb & Hrest).
    rewrite fmap_cons in Hnodup. apply NoDup_cons in Hnodup.
    destruct Hnodup as [Hfresh Hnodup].
    pose proof (process_box_fields _ _ _ _ _ _ _ _ _ _ Hb) as (Hid & _).
    apply process_box_speed in Hb.
    assert (Hother : forall tid, tid <> tb_track_id tb ->
              speed_estimator vp2 !! tid = speed_estimator vp !! tid).
    { intros tid Hne.
      pose proof (SpeedFacts.estimate_speed_other GroundPos get_real_world_pos
                    norm_diff (tb_track_id tb) tid (bottom_center_of tb)
                    frame_number fps (speed_estimator vp) Hne) as Ho.
      rewrite Hb in Ho. exact Ho. }
    destruct (IH Hnodup frame2 (fun i => clock (S i)) vp2 records') as [Hall Hkeep].
    { intros tb' d Hin Hd. apply (Hlater tb' d); [right; exact Hin|].
      rewrite <- Hother; [exact Hd|].
      intros E. apply Hfresh. rewrite <- E.
      apply list_elem_of_fmap. exists tb'. split; [reflexivity|exact Hin]. }
    { exact Hrest. }
    split.
    + constructor; [|exact Hall].
      destruct (SpeedFacts.estimate_speed_later_frame _ _ _ _ _ _ _ _ _ _
                  (fun d Hd => Hlater tb d (list_elem_of_here _ _) Hd) Hb)
        as [Hz|(d' & Hd' & Hst)]; [left; exact Hz|right].
      exists d'. split; [|exact Hst].
      rewrite Hid, Hkeep; [exact Hd'|exact Hfresh].
    + intros tid Hnot. rewrite fmap_cons in Hnot.
      apply not_elem_of_cons in Hnot. destruct Hnot as [Hne Hnot].
      rewrite (Hkeep tid Hnot). apply Hother. exact Hne.
Qed.

(** X23.  On a frame whose number is beyond the last frame of every track,
    and whose boxes carry distinct track ids, the grace period holds: a
    record has a nonzero speed only if its track is past the grace period
    when the frame ends. *)
Theorem later_frame_respects_grace_period
    (frame : Image Pixel) (frame_number : Z) (fps : Q) (annotate : bool)
    (clock : nat -> Q) (vp vp' : VP) (boxes : list TrackedBox)
    (detections : list Detection) (annotated : option string) :
  detect_vehicles frame = Some boxes ->
  NoDup (tb_track_id <$> boxes) ->
  map_Forall (fun _ d => last_frame d < frame_number) (speed_estimator vp) ->
  process_frame_data frame frame_number fps annotate clock vp
    = Returned (detections, annotated) vp' ->
  Forall
    (fun record =>
       speed record = 0%Q
       \/ exists d, speed_estimator vp' !! track_id record = Some d
            /\ stabilised GroundPos d)
    detections.
Proof.
  intros Hdet Hnodup Hlater. unfold Processor.process_frame_data.
  rewrite Hdet. simpl.
  destruct (process_boxes _ _ _ _ _ _ _) as [[records frame1] vp1|e vp1] eqn:Hr;
    [|discriminate].
  intros H. injection H as <- _ <-.
  refine (proj1 (process_boxes_grace _ _ _ _ _ _ _ _ _ _ Hnodup _ Hr)).
  intros tb d _ Hd. exact (Hlater _ _ Hd).
Qed.

(** X24.  No error is contained within [process_frame_data]: with the
    plate model loaded and no reader, a first tracked box whose plate is not
    cached and for which the plate model proposes a candidate with a
    non-empty crop makes the whole frame raise [AttributeError].  No record
    is returned, for this box or the others, while the estimator has taken
    the sample of the box. *)
Theorem missing_reader_aborts_frame
    (frame : Image Pixel) (frame_number : Z) (fps speed : Q) (annotate : bool)
    (clock : nat -> Q) (vp : VP) (tb : TrackedBox) (rest : list TrackedBox)
    (est : gmap Z (Track GroundPos))
    (x1 y1 x2 y2 : Z) (boxes : list Box) (results : list (list Box)) :
  reader = None -> model_loaded = true ->
  detect_vehicles frame = Some (tb :: rest) ->
  estimate_speed (tb_track_id tb) (bottom_center_of tb) frame_number fps
    (speed_estimator vp) = Returned speed est ->
  0 < size Pixel (crop_of frame tb) ->
  plate_cache (alpr_reader vp) !! tb_track_id tb = None ->
  plate_model (crop_of frame tb) = ((x1, y1, x2, y2) :: boxes) :: results ->
  size Pixel (crop Pixel (crop_of frame tb) y1 y2 x1 x2) <> 0 ->
  process_frame_data frame frame_number fps annotate clock vp
  = Raised AttributeError
      (mkVP est
         (mkSt (plate_cache (alpr_reader vp))
            (calls (alpr_reader vp) ++ [PlateModelCall (crop_of frame tb)]))).
Proof.
  intros Hr Hm Hdet Hspeed Hcrop Hcache Hpm Hplate.
  pose proof (AlprFacts.detect_and_read_without_reader Pixel model_loaded
                plate_model reader (crop_of frame tb) (tb_track_id tb)
                (clock O) (alpr_reader vp) x1 y1 x2 y2 boxes results
                Hr Hm Hcache Hpm Hplate) as Hread.
  unfold Processor.process_frame_data. rewrite Hdet.
  change (default [] (Some (tb :: rest))) with (tb :: rest).
  cbn [Processor.process_boxes].
  unfold Processor.process_box, crop_of, bottom_center_of in *.
  destruct (tb_box tb) as [[[bx1 by1] bx2] by2]. cbv zeta.
  rewrite Hspeed. apply Z.ltb_lt in Hcrop. rewrite Hcrop, Hread. reflexivity.
Qed.

(** A pass over the boxes is a sequence of calls to the estimator at the
    frame number: what those calls keep, the pass keeps. *)
Lemma process_boxes_keeps
    (P : gmap Z (Track GroundPos) -> Prop) (frame_number : Z) (fps : Q) :
  (forall track_id pos td,
     P td -> P (state_of (estimate_speed track_id pos frame_number fps td))) ->
  forall (boxes : list TrackedBox) (frame frame' : Image Pixel)
         (annotate : bool) (clock : nat -> Q) (vp vp' : VP)
         (detections : list Detection),
    P (speed_estimator vp) ->
    process_boxes frame frame_number fps annotate boxes clock vp
      = Returned (detections, frame') vp' ->
    P (speed_estimator vp').
Proof.
  intros Hstep boxes.
  induction boxes as [|tb rest IH];
    intros frame frame' annotate clock vp vp' detections HP Hr.
  - simpl in Hr. injection Hr as _ _ <-. exact HP.
  - apply process_boxes_cons in Hr.
    destruct Hr as (record & records & frame1 & vp1 & _ & Hb & Hrest).
    apply (IH frame1 frame' annotate (fun i => clock (S i)) vp1 vp' records);
      [|exact Hrest].
    apply process_box_speed in Hb.
    pose proof (Hstep (tb_track_id tb) (bottom_center_of tb)
                  (speed_estimator vp) HP) as Hnext.
    rewrite Hb in Hnext. exact Hnext.
Qed.

End Facts.

Section VideoFacts.

Variable GroundPos : Type.
Variable get_real_world_pos : Z * Z -> GroundPos.
Variable norm_diff : GroundPos -> GroundPos -> Q.
Variable Pixel : Type.
Variable model_loaded : bool.
Variable plate_model : Image Pixel -> list (list Box).
Variable reader : option (Image Pixel -> list (string * Q)).
Variable detect_vehicles : Image Pixel -> option (list TrackedBox).
Variable names : Z -> string.
Variable draw : Image Pixel -> Box -> Z -> option string -> Q -> Image Pixel.
Variable draw_video :
  Image Pixel -> Box -> Z -> option string -> Q -> Image Pixel.

Abbreviation VP := (VP GroundPos Pixel).
Abbreviation estimate_speed :=
  (estimate_speed GroundPos get_real_world_pos norm_diff).
Abbreviation detect_and_read :=
  (detect_and_read Pixel model_loaded plate_model reader).
Abbreviation video_box :=
  (video_box GroundPos get_real_world_pos norm_diff
     Pixel model_loaded plate_model reader draw_video).
Abbreviation video_boxes :=
  (video_boxes GroundPos get_real_world_pos norm_diff
     Pixel model_loaded plate_model reader draw_video).
Abbreviation video_frames :=
  (video_frames GroundPos get_real_world_pos norm_diff
     Pixel model_loaded plate_model reader detect_vehicles draw_video).
Abbreviation process_video :=
  (process_video GroundPos get_real_world_pos norm_diff
     Pixel model_loaded plate_model reader detect_vehicles draw_video).

(** The body of the loop of [process_video] is the body of the loop of
    [process_frame_data], annotating, were it to draw as [process_video]
    draws: the same calls to the estimator and the reader, and a label that
    shows the plate and the speed of the record. *)
Lemma video_box_as_process_box
    (frame : Image Pixel) (frame_idx : Z) (fps : Q) (tb : TrackedBox)
    (now : Q) (vp : VP) :
  video_box frame frame_idx fps tb now vp
  = match Processor.process_box GroundPos get_real_world_pos norm_diff
            Pixel model_loaded plate_model reader names draw_video
            frame frame_idx fps true tb now vp with
    | Returned (record, frame') vp' => Returned (label_of record, frame') vp'
    | Raised e vp' => Raised e vp'
    end.
Proof.
  unfold Processor.video_box, Processor.process_box.
  destruct (tb_box tb) as [[[x1 y1] x2] y2].
  destruct (estimate_speed _ _ _ _ _) as [v est|e est]; [|reflexivity].
  destruct (0 <? size Pixel _); [|reflexivity].
  destruct (detect_and_read _ _ _ _) as [read_plate alpr|e alpr];
    reflexivity.
Qed.

Lemma video_boxes_as_process_boxes
    (boxes : list TrackedBox) (frame : Image Pixel) (frame_idx : Z) (fps : Q)
    (clock : nat -> Q) (vp : VP) :
  video_boxes frame frame_idx fps boxes clock vp
  = match Processor.process_boxes GroundPos get_real_world_pos norm_diff
            Pixel model_loaded plate_model reader names draw_video
            frame frame_idx fps true boxes clock vp with
    | Returned (records, frame') vp' =>
        Returned (label_of <$> records, frame') vp'
    | Raised e vp' => Raised e vp'
    end.
Proof.
  revert frame clock vp.
  induction boxes as [|tb rest IH]; intros frame clock vp;
    cbn [Processor.video_boxes Processor.process_boxes]; [reflexivity|].
  rewrite video_box_as_process_box.
  destruct (Processor.process_box _ _ _ _ _ _ _ _ _ _ _ _ _ tb _ _)
    as [[record frame1] vp1|e vp1]; [|reflexivity].
  rewrite IH.
  destruct (Processor.process_boxes _ _ _ _ _ _ _ _ _ _ _ _ _ rest _ _)
    as [[records frame2] vp2|e vp2]; reflexivity.
Qed.

Lemma video_boxes_returned
    (boxes : list TrackedBox) (frame frame' : Image Pixel) (frame_idx : Z)
    (fps : Q) (clock : nat -> Q) (vp vp' : VP) (labels : list Label) :
  video_boxes frame frame_idx fps boxes clock vp = Returned (labels, frame') vp' ->
  exists records,
    Processor.process_boxes GroundPos get_real_world_pos norm_diff
      Pixel model_loaded plate_model reader names draw_video
      frame frame_idx fps true boxes clock vp
    = Returned (records, frame') vp'
    /\ labels = label_of <$> records.
Proof.
  rewrite video_boxes_as_process_boxes.
  destruct (Processor.process_boxes _ _ _ _ _ _ _ _ _ _ _ _ _ boxes _ _)
    as [[records frame1] vp1|e vp1]; [|discriminate].
  intros H. injection H as <- <- <-. exists records. split; reflexivity.
Qed.

Lemma video_frames_cons
    (frame : Image Pixel) (rest : list (Image Pixel)) (frame_idx : Z) (fps : Q)
    (clock : nat -> nat -> Q) (vp vp' : VP)
    (written : list (Image Pixel * list Label)) :
  video_frames (frame :: rest) frame_idx fps clock vp = Returned written vp' ->
  exists labels frame1 vp1 written',
    written = (frame1, labels) :: written'
    /\ video_boxes frame frame_idx fps (default [] (detect_vehicles frame))
         (clock O) vp
       = Returned (labels, frame1) vp1
    /\ video_frames rest (frame_idx + 1) fps (fun i => clock (S i)) vp1
       = Returned written' vp'.
Proof.
  cbn [Processor.video_frames].
  destruct (video_boxes frame _ _ _ _ _) as [[labels frame1] vp1|e vp1] eqn:Hb;
    [|discriminate].
  destruct (video_frames rest _ _ _ vp1) as [written'|e vp2] eqn:Hr;
    [|discriminate].
  intros H. injection H as <- <-.
  exists labels, frame1, vp1, written'.
  split; [reflexivity|]. split; [reflexivity|exact Hr].
Qed.

Lemma video_boxes_keeps
    (P : gmap Z (Track GroundPos) -> Prop) (frame_idx : Z) (fps : Q)
    (boxes : list TrackedBox) (frame frame' : Image Pixel)
    (clock : nat -> Q) (vp vp' : VP) (labels : list Label) :
  (forall track_id pos td,
     P td -> P (state_of (estimate_speed track_id pos frame_idx fps td))) ->
  P (speed_estimator vp) ->
  video_boxes frame frame_idx fps boxes clock vp = Returned (labels, frame') vp' ->
  P (speed_estimator vp').
Proof.
  intros Hstep HP Hrun. apply video_boxes_returned in Hrun.
  destruct Hrun as (records & Hrun & _).
  exact (process_boxes_keeps GroundPos get_real_world_pos norm_diff Pixel
           model_loaded plate_model reader names draw_video P frame_idx fps
           Hstep boxes frame frame' true clock vp vp' records HP Hrun).
Qed.

(** A track past its grace period stays past it through the frames of a
    video. *)
Lemma video_frames_keep_stabilised
    (frames : list (Image Pixel)) (frame_idx : Z) (fps : Q)
    (clock : nat -> nat -> Q) (vp vp' : VP)
    (written : list (Image Pixel * list Label)) (track_id : Z) :
  (exists d, speed_estimator vp !! track_id = Some d
     /\ stabilised GroundPos d) ->
  video_frames frames frame_idx fps clock vp = Returned written vp' ->
  exists d, speed_estimator vp' !! track_id = Some d
    /\ stabilised GroundPos d.
Proof.
  revert frame_idx clock vp written.
  induction frames as [|frame rest IH]; intros frame_idx clock vp written HP Hrun.
  - simpl in Hrun. injection Hrun as _ <-. exact HP.
  - apply video_frames_cons in Hrun.
    destruct Hrun as (labels & frame1 & vp1 & written' & _ & Hb & Hrest).
    apply (IH (frame_idx + 1) (fun i => clock (S i)) vp1 written');
      [|exact Hrest].
    apply (video_boxes_keeps
             (fun td => exists d, td !! track_id = Some d
                          /\ stabilised GroundPos d)
             frame_idx fps (default [] (detect_vehicles frame)) frame frame1
             (clock O) vp vp1 labels);
      [|exact HP|exact Hb].
    intros other pos td (d & Hd & Hst).
    exact (SpeedFacts.estimate_speed_keeps_stabilised GroundPos
             get_real_world_pos norm_diff track_id other pos frame_idx fps
             td d Hd Hst).
Qed.

Lemma video_frames_grace
    (frames : list (Image Pixel)) (frame_idx : Z) (fps : Q)
    (clock : nat -> nat -> Q) (vp vp' : VP)
    (written : list (Image Pixel * list Label)) :
  map_Forall (fun _ d => last_frame d < frame_idx) (speed_estimator vp) ->
  Forall (fun frame =>
            NoDup (tb_track_id <$> default [] (detect_vehicles frame)))
    frames ->
  video_frames frames frame_idx fps clock vp = Returned written vp' ->
  Forall
    (fun w =>
       Forall
         (fun label =>
            label_speed label = 0%Q
            \/ exists d, speed_estimator vp' !! label_track_id label = Some d
                 /\ stabilised GroundPos d)
         (snd w))
    written.
Proof.
  revert frame_idx clock vp written.
  induction frames as [|frame rest IH];
    intros frame_idx clock vp written Hbehind Hnodup Hrun.
  - simpl in Hrun. injection Hrun as <- _. constructor.
  - apply video_frames_cons in Hrun.
    destruct Hrun as (labels & frame1 & vp1 & written' & -> & Hb & Hrest).
    apply Forall_cons in Hnodup. destruct Hnodup as [Hnd Hnodup].
    pose proof Hb as Hrecords. apply video_boxes_returned in Hrecords.
    destruct Hrecords as (records & Hrecords & ->).
    assert (Hbehind1 :
      map_Forall (fun _ d => last_frame d < frame_idx + 1) (speed_estimator vp1)).
    { assert (Hle : map_Forall (fun _ d => last_frame d <= frame_idx)
                      (speed_estimator vp1)).
      { apply (video_boxes_keeps
                 (map_Forall (fun _ d => last_frame d <= frame_idx))
                 frame_idx fps (default [] (detect_vehicles frame)) frame
                 frame1 (clock O) vp vp1 (label_of <$> records));
          [| |exact Hb].
        - intros tid pos td. apply SpeedFacts.estimate_speed_last_frame.
        - intros i d Hd. specialize (Hbehind i d Hd). simpl in Hbehind. lia. }
      intros i d Hd. specialize (Hle i d Hd). simpl in *. lia. }
    constructor; [|exact (IH _ _ _ _ Hbehind1 Hnodup Hrest)].
    simpl. apply Forall_fmap.
    destruct (process_boxes_grace GroundPos get_real_world_pos norm_diff Pixel
                model_loaded plate_model reader names draw_video _ frame frame1
                frame_idx fps true (clock O) vp vp1 records Hnd
                (fun tb d _ Hd => Hbehind _ _ Hd) Hrecords) as [Hall _].
    eapply Forall_impl; [exact Hall|].
    intros record [Hz|Hst]; [left; exact Hz|right].
    exact (video_frames_keep_stabilised rest (frame_idx + 1) fps
             (fun i => clock (S i)) vp1 vp' written' (track_id record)
             Hst Hrest).
Qed.

(** X26.  In file mode the frames are numbered from 0 in the order they are
    read.  On an estimator that holds no track of a frame at or after 0, and
    with distinct track ids within each frame, the grace period holds over
    the whole video: a label shows a nonzero speed only for a track that is
    past its grace period. *)
Theorem file_mode_respects_grace_period
    (fps : Q) (frames : list (Image Pixel)) (clock : nat -> nat -> Q)
    (vp vp' : VP) (written : list (Image Pixel * list Label)) :
  map_Forall (fun _ d => last_frame d < 0) (speed_estimator vp) ->
  Forall (fun frame =>
            NoDup (tb_track_id <$> default [] (detect_vehicles frame)))
    frames ->
  process_video (Opened fps frames) clock vp = Returned (Some written) vp' ->
  Forall
    (fun w =>
       Forall
         (fun label =>
            label_speed label = 0%Q
            \/ exists d, speed_estimator vp' !! label_track_id label = Some d
                 /\ stabilised GroundPos d)
         (snd w))
    written.
Proof.
  intros Hbehind Hnodup. unfold Processor.process_video.
  destruct (video_frames frames 0 fps clock vp) as [w vp1|e vp1] eqn:Hrun;
    [|discriminate].
  intros H. injection H as <- <-.
  exact (video_frames_grace _ _ _ _ _ _ _ Hbehind Hnodup Hrun).
Qed.

Lemma video_boxes_ids
    (boxes : list TrackedBox) (frame frame' : Image Pixel) (frame_idx : Z)
    (fps : Q) (clock : nat -> Q) (vp vp' : VP) (labels : list Label) :
  video_boxes frame frame_idx fps boxes clock vp = Returned (labels, frame') vp' ->
  label_track_id <$> labels = tb_track_id <$> boxes.
Proof.
  revert frame frame' clock vp vp' labels.
  induction boxes as [|tb rest IH]; intros frame frame' clock vp vp' labels;
    cbn [Processor.video_boxes].
  - intros H. injection H as <- _ _. reflexivity.
  - destruct (video_box frame _ _ tb _ _) as [[label frame1] vp1|e vp1] eqn:Hb;
      [|discriminate].
    destruct (video_boxes frame1 _ _ rest _ vp1)
      as [[labels' frame2] vp2|e vp2] eqn:Hr; [|discriminate].
    intros H. injection H as <- _ _.
    rewrite !fmap_cons, (IH _ _ _ _ _ _ Hr). f_equal.
    unfold Processor.video_box in Hb.
    destruct (tb_box tb) as [[[x1 y1] x2] y2].
    destruct (estimate_speed _ _ _ _ _) as [v est|e est]; [|discriminate].
    destruct (0 <? size Pixel _).
    + destruct (detect_and_read _ _ _ _) as [read_plate alpr|e alpr];
        [|discriminate].
      injection Hb as <- _ _. reflexivity.
    + injection Hb as <- _ _. reflexivity.
Qed.

(** X27.  A video that is processed to the end has one frame written per
    frame read, in order, each with one label per tracked box of the frame
    read, in the order of the boxes. *)
Theorem file_mode_writes_every_frame
    (fps : Q) (frames : list (Image Pixel)) (clock : nat -> nat -> Q)
    (vp vp' : VP) (written : list (Image Pixel * list Label)) :
  process_video (Opened fps frames) clock vp = Returned (Some written) vp' ->
  Forall2
    (fun frame w =>
       label_track_id <$> snd w
       = tb_track_id <$> default [] (detect_vehicles frame))
    frames written.
Proof.
  unfold Processor.process_video.
  destruct (video_frames frames 0 fps clock vp) as [w vp1|e vp1] eqn:Hrun;
    [|discriminate].
  intros H. injection H as <- <-.
  revert Hrun. generalize 0. revert clock vp w.
  induction frames as [|frame rest IH]; intros clock vp w idx Hrun.
  - simpl in Hrun. injection Hrun as <- _. constructor.
  - apply video_frames_cons in Hrun.
    destruct Hrun as (labels & frame1 & vp1' & written' & -> & Hb & Hrest).
    constructor; [exact (video_boxes_ids _ _ _ _ _ _ _ _ _ Hb)|].
    exact (IH _ _ _ _ Hrest).
Qed.

(** Two passes over the same boxes at the same frame number and frame
    rate, from the same estimator, leave the same estimator and give the
    same speeds for the same track ids, whatever they draw and whatever the
    plate reader answers. *)
Lemma process_boxes_estimate_alike
    (draw1 draw2 : Image Pixel -> Box -> Z -> option string -> Q -> Image Pixel)
    (boxes : list TrackedBox) (frame_number : Z) (fps : Q) :
  forall (frame1 frame2 frame1' frame2' : Image Pixel)
         (annotate1 annotate2 : bool) (clock1 clock2 : nat -> Q)
         (vp1 vp2 vp1' vp2' : VP) (records1 records2 : list Detection),
    speed_estimator vp1 = speed_estimator vp2 ->
    Processor.process_boxes GroundPos get_real_world_pos norm_diff
      Pixel model_loaded plate_model reader names draw1
      frame1 frame_number fps annotate1 boxes clock1 vp1
    = Returned (records1, frame1') vp1' ->
    Processor.process_boxes GroundPos get_real_world_pos norm_diff
      Pixel model_loaded plate_model reader names draw2
      frame2 frame_number fps annotate2 boxes clock2 vp2
    = Returned (records2, frame2') vp2' ->
    speed_estimator vp1' = speed_estimator vp2'
    /\ speed <$> records1 = speed <$> records2
    /\ track_id <$> records1 = track_id <$> records2.
Proof.
  induction boxes as [|tb rest IH];
    intros frame1 frame2 frame1' frame2' annotate1 annotate2 clock1 clock2
           vp1 vp2 vp1' vp2' records1 records2 Hest Hrun1 Hrun2.
  - simpl in Hrun1, Hrun2.
    injection Hrun1 as <- _ <-. injection Hrun2 as <- _ <-.
    split; [exact Hest|]. split; reflexivity.
  - apply process_boxes_cons in Hrun1, Hrun2.
    destruct Hrun1 as (r1 & rs1 & f1 & v1 & -> & Hb1 & Hrest1).
    destruct Hrun2 as (r2 & rs2 & f2 & v2 & -> & Hb2 & Hrest2).
    pose proof (process_box_fields _ _ _ _ _ _ _ _ _ _ _ _ _ _ _ _ _ _ _ Hb1)
      as (Hid1 & _).
    pose proof (process_box_fields _ _ _ _ _ _ _ _ _ _ _ _ _ _ _ _ _ _ _ Hb2)
      as (Hid2 & _).
    apply process_box_speed in Hb1, Hb2.
    rewrite Hest, Hb2 in Hb1. injection Hb1 as Hspeed Hest1.
    destruct (IH _ _ _ _ _ _ _ _ _ _ _ _ _ _ (eq_sym Hest1) Hrest1 Hrest2)
      as (Hest' & Hspeeds & Hids).
    split; [exact Hest'|]. rewrite !fmap_cons.
    split; [rewrite Hspeeds, Hspeed; reflexivity|].
    rewrite Hids, Hid1, Hid2. reflexivity.
Qed.

(** X25.  On the tracked boxes of one frame, from the same estimator, at the
    same frame number and frame rate, the loop of [process_video] and the
    loop of [process_frame_data], when both run to the end, leave the same
    estimator, and the labels of the one show the speeds and track ids of
    the records of the other, although the two draw differently and may
    read different plates. *)
Theorem both_modes_estimate_alike
    (boxes : list TrackedBox) (frame_number : Z) (fps : Q)
    (frame frame_v frame' frame_v' : Image Pixel) (annotate : bool)
    (clock clock_v : nat -> Q) (vp vp_v vp' vp_v' : VP)
    (records : list Detection) (labels : list Label) :
  speed_estimator vp = speed_estimator vp_v ->
  Processor.process_boxes GroundPos get_real_world_pos norm_diff
    Pixel model_loaded plate_model reader names draw
    frame frame_number fps annotate boxes clock vp
  = Returned (records, frame') vp' ->
  video_boxes frame_v frame_number fps boxes clock_v vp_v
  = Returned (labels, frame_v') vp_v' ->
  speed_estimator vp' = speed_estimator vp_v'
  /\ label_speed <$> labels = speed <$> records
  /\ label_track_id <$> labels = track_id <$> records.
Proof.
  intros Hest Hrun Hvideo. apply video_boxes_returned in Hvideo.
  destruct Hvideo as (records_v & Hvideo & ->).
  destruct (process_boxes_estimate_alike draw draw_video boxes frame_number
              fps _ _ _ _ _ _ _ _ _ _ _ _ _ _ Hest Hrun Hvideo)
    as (Hest' & Hspeeds & Hids).
  split; [exact Hest'|]. rewrite <- !list_fmap_compose.
  split; [symmetry; exact Hspeeds|symmetry; exact Hids].
Qed.

End VideoFacts.

Section Runs.

Import Fixture.

(** C8, as stated.  The crop of [thin_box] is empty; its track 7 has one
    accepted sample.  Processing the box at frame 2 does not skip the speed
    estimation: the track gets its second accepted sample. *)
Lemma empty_crop_still_estimates_speed :
  ~ (size Pixel (crop_of (solid 0) thin_box) = 0 ->
     speed_estimator
       (state_of (Fixture.process_box (solid 0) 2 30 false thin_box 100
                    warm_processor))
     = speed_estimator warm_processor).
Proof.
  intros H. specialize (H eq_refl).
  apply (f_equal (fun m => hits <$> (m !! 7))) in H.
  vm_compute in H. discriminate.
Qed.

Lemma empty_crop_skips_plate_reading_only_witness :
  exists record vp',
    Fixture.process_boxes (solid 0) 2 30 false [thin_box] (fun _ => 100%Q)
      warm_processor
    = Returned ([record], solid 0) vp'
    /\ license_plate record = None
    /\ alpr_reader vp' = fresh_reader
    /\ hits <$> (speed_estimator vp' !! 7) = Some 2.
Proof.
  eexists _, _. split.
  - unfold Fixture.process_boxes.
    rewrite (empty_crop_skips_plate_reading_only
               GroundPos get_real_world_pos norm_diff Pixel true
               fake_plate_model (Some fake_ocr) names draw
               (solid 0) 2 30 false thin_box [] (fun _ => 100%Q)
               warm_processor eq_refl).
    vm_compute. reflexivity.
  - split; [reflexivity|]. split; reflexivity.
Defined.

Lemma emitted_plate_is_null_or_resolved_witness :
  (exists st,
     read_plate (crop_of split_frame bottom_box) 9 100 fresh_reader
     = Returned (Some "Scanning..."%string) st)
  /\ exists detections annotated vp',
       process_three split_frame 2 30 true (fun _ => 100%Q) fresh_processor
       = Returned (detections, annotated) vp'
       /\ license_plate <$> detections = [Some "ABC1234"%string; None; None]
       /\ clean_cache Pixel (alpr_reader vp')
       /\ forall (i : nat) (record : Detection),
            detections !! i = Some record ->
            license_plate record <> Some "Scanning..."%string
            /\ exists tb records_i frame_i vp_i,
                 default [] (detect_three split_frame) !! i = Some tb
                 /\ Fixture.process_boxes split_frame 2 30 true
                      (take i (default [] (detect_three split_frame)))
                      (fun _ => 100%Q) fresh_processor
                    = Returned (records_i, frame_i) vp_i
                 /\ plate_follows_read Pixel true fake_plate_model
                      (Some fake_ocr) frame_i tb 100 (alpr_reader vp_i)
                      record.
Proof.
  split; [eexists; vm_compute; reflexivity|].
  destruct (process_three split_frame 2 30 true (fun _ => 100%Q)
              fresh_processor) as [[detections annotated] vp'|e vp'] eqn:Hrun;
    [|vm_compute in Hrun; discriminate].
  exists detections, annotated, vp'. split; [reflexivity|].
  split; [vm_compute in Hrun; injection Hrun as <- _ _; reflexivity|].
  apply (emitted_plate_is_null_or_resolved
           GroundPos get_real_world_pos norm_diff Pixel true fake_plate_model
           (Some fake_ocr) detect_three names draw encode
           split_frame 2 30 true (fun _ => 100%Q) fresh_processor vp'
           detections annotated).
  - apply map_Forall_empty.
  - exact Hrun.
Defined.

Lemma untracked_frame_gives_no_record_witness :
  Processor.process_frame_data GroundPos get_real_world_pos norm_diff
    Pixel true fake_plate_model (Some fake_ocr) detect_nothing names draw
    encode (solid 1) 2 30 true (fun _ => 100%Q) warm_processor
  = Returned ([], Some (encode (solid 1))) warm_processor.
Proof.
  apply (untracked_frame_gives_no_record
           GroundPos get_real_world_pos norm_diff Pixel true fake_plate_model
           (Some fake_ocr) detect_nothing names draw encode
           (solid 1) 2 30 true (fun _ => 100%Q) warm_processor).
  left. reflexivity.
Defined.

Lemma one_record_per_tracked_box_witness :
  exists detections annotated vp',
    Fixture.process_frame_data (solid 1) 2 30 true (fun _ => 100%Q)
      warm_processor
    = Returned (detections, annotated) vp'
    /\ Forall2
         (fun tb record =>
            track_id record = tb_track_id tb
            /\ vehicle_type record = names (tb_cls_id tb)
            /\ confidence record = tb_conf tb
            /\ box_coordinates record = coordinates_of tb)
         [thin_box; wide_box] detections.
Proof.
  destruct (Fixture.process_frame_data (solid 1) 2 30 true (fun _ => 100%Q)
              warm_processor) as [[detections annotated] vp'|e vp'] eqn:Hrun;
    [|vm_compute in Hrun; discriminate].
  exists detections, annotated, vp'. split; [reflexivity|].
  exact (one_record_per_tracked_box
           GroundPos get_real_world_pos norm_diff Pixel true fake_plate_model
           (Some fake_ocr) detect_vehicles names draw encode
           (solid 1) 2 30 true (fun _ => 100%Q) warm_processor vp'
           [thin_box; wide_box] detections annotated eq_refl Hrun).
Defined.

Lemma frame_speeds_are_in_range_witness :
  exists detections annotated vp',
    Fixture.process_frame_data (solid 1) 2 30 true (fun _ => 100%Q)
      warm_processor
    = Returned (detections, annotated) vp'
    /\ map_Forall (fun _ d => well_formed GroundPos d) (speed_estimator vp')
    /\ Forall (fun record =>
                 speed record = 0%Q \/ (5 <= speed record <= 160)%Q)
         detections.
Proof.
  destruct (Fixture.process_frame_data (solid 1) 2 30 true (fun _ => 100%Q)
              warm_processor) as [[detections annotated] vp'|e vp'] eqn:Hrun;
    [|vm_compute in Hrun; discriminate].
  exists detections, annotated, vp'. split; [reflexivity|].
  exact (frame_speeds_are_in_range
           GroundPos get_real_world_pos norm_diff Pixel true fake_plate_model
           (Some fake_ocr) detect_vehicles names draw encode
           (solid 1) 2 30 true (fun _ => 100%Q) warm_processor vp'
           detections annotated SpeedFacts.warm_is_well_formed Hrun).
Defined.

Lemma warm_is_behind_frame_2 :
  map_Forall (fun _ d => last_frame d < 2) (speed_estimator warm_processor).
Proof. apply map_Forall_singleton. simpl. lia. Qed.

Lemma later_frame_respects_grace_period_witness :
  exists detections annotated vp',
    Fixture.process_frame_data (solid 1) 2 30 true (fun _ => 100%Q)
      warm_processor
    = Returned (detections, annotated) vp'
    /\ Forall
         (fun record =>
            speed record = 0%Q
            \/ exists d, speed_estimator vp' !! track_id record = Some d
                 /\ stabilised GroundPos d)
         detections.
Proof.
  destruct (Fixture.process_frame_data (solid 1) 2 30 true (fun _ => 100%Q)
              warm_processor) as [[detections annotated] vp'|e vp'] eqn:Hrun;
    [|vm_compute in Hrun; discriminate].
  exists detections, annotated, vp'. split; [reflexivity|].
  apply (later_frame_respects_grace_period
           GroundPos get_real_world_pos norm_diff Pixel true fake_plate_model
           (Some fake_ocr) detect_vehicles names draw encode
           (solid 1) 2 30 true (fun _ => 100%Q) warm_processor vp'
           [thin_box; wide_box] detections annotated).
  - reflexivity.
  - apply (bool_decide_unpack _). vm_compute. exact I.
  - exact warm_is_behind_frame_2.
  - exact Hrun.
Defined.

Lemma missing_reader_aborts_frame_witness :
  exists est,
    Processor.process_frame_data GroundPos get_real_world_pos norm_diff
      Pixel true fake_plate_model None detect_wide names draw encode
      (solid 3) 2 30 true (fun _ => 100%Q) warm_processor
    = Raised AttributeError
        (mkVP est (mkSt ∅ [PlateModelCall (solid 3)]))
    /\ is_Some (est !! 8).
Proof.
  eexists. split.
  - apply (missing_reader_aborts_frame
             GroundPos get_real_world_pos norm_diff Pixel true fake_plate_model
             None detect_wide names draw encode
             (solid 3) 2 30 0 true (fun _ => 100%Q) warm_processor
             wide_box [] _ 0 0 2 2 [] []).
    + reflexivity.
    + reflexivity.
    + reflexivity.
    + reflexivity.
    + vm_compute. reflexivity.
    + reflexivity.
    + reflexivity.
    + vm_compute. discriminate.
  - eexists. vm_compute. reflexivity.
Defined.

Lemma file_mode_respects_grace_period_witness :
  exists written vp',
    Fixture.process_video two_frames (fun _ _ => 100%Q) fresh_processor
    = Returned (Some written) vp'
    /\ Forall
         (fun w =>
            Forall
              (fun label =>
                 label_speed label = 0%Q
                 \/ exists d,
                      speed_estimator vp' !! label_track_id label = Some d
                      /\ stabilised GroundPos d)
              (snd w))
         written.
Proof.
  destruct (Fixture.process_video two_frames (fun _ _ => 100%Q)
              fresh_processor) as [[written|] vp'|e vp'] eqn:Hrun;
    [|vm_compute in Hrun; discriminate|vm_compute in Hrun; discriminate].
  exists written, vp'. split; [reflexivity|].
  apply (file_mode_respects_grace_period
           GroundPos get_real_world_pos norm_diff Pixel true fake_plate_model
           (Some fake_ocr) detect_vehicles names draw
           30 [solid 1; solid 1] (fun _ _ => 100%Q) fresh_processor vp'
           written).
  - apply map_Forall_empty.
  - repeat constructor; apply (bool_decide_unpack _); vm_compute; exact I.
  - exact Hrun.
Defined.

Lemma file_mode_writes_every_frame_witness :
  exists written vp',
    Fixture.process_video two_frames (fun _ _ => 100%Q) fresh_processor
    = Returned (Some written) vp'
    /\ Forall2
         (fun frame w =>
            label_track_id <$> snd w
            = tb_track_id <$> default [] (detect_vehicles frame))
         [solid 1; solid 1] written.
Proof.
  destruct (Fixture.process_video two_frames (fun _ _ => 100%Q)
              fresh_processor) as [[written|] vp'|e vp'] eqn:Hrun;
    [|vm_compute in Hrun; discriminate|vm_compute in Hrun; discriminate].
  exists written, vp'. split; [reflexivity|].
  exact (file_mode_writes_every_frame
           GroundPos get_real_world_pos norm_diff Pixel true fake_plate_model
           (Some fake_ocr) detect_vehicles draw
           30 [solid 1; solid 1] (fun _ _ => 100%Q) fresh_processor vp'
           written Hrun).
Defined.

Lemma both_modes_estimate_alike_witness :
  exists records frame' vp' labels frame_v' vp_v',
    Fixture.process_boxes (solid 1) 2 30 true [thin_box; wide_box]
      (fun _ => 100%Q) warm_processor
    = Returned (records, frame') vp'
    /\ Fixture.video_boxes (solid 1) 2 30 [thin_box; wide_box]
         (fun _ => 200%Q) warm_processor
       = Returned (labels, frame_v') vp_v'
    /\ license_plate <$> records = [None; Some "ABC1234"%string]
    /\ label_plate <$> labels = [None; None]
    /\ speed_estimator vp' = speed_estimator vp_v'
    /\ label_speed <$> labels = speed <$> records
    /\ label_track_id <$> labels = track_id <$> records.
Proof.
  destruct (Fixture.process_boxes (solid 1) 2 30 true [thin_box; wide_box]
              (fun _ => 100%Q) warm_processor)
    as [[records frame'] vp'|e vp'] eqn:Hrun;
    [|vm_compute in Hrun; discriminate].
  destruct (Fixture.video_boxes (solid 1) 2 30 [thin_box; wide_box]
              (fun _ => 200%Q) warm_processor)
    as [[labels frame_v'] vp_v'|e vp_v'] eqn:Hvideo;
    [|vm_compute in Hvideo; discriminate].
  exists records, frame', vp', labels, frame_v', vp_v'.
  split; [reflexivity|]. split; [reflexivity|].
  split; [vm_compute in Hrun; injection Hrun as <- _ _; reflexivity|].
  split; [vm_compute in Hvideo; injection Hvideo as <- _ _; reflexivity|].
  exact (both_modes_estimate_alike
           GroundPos get_real_world_pos norm_diff Pixel true fake_plate_model
           (Some fake_ocr) names draw blacken
           [thin_box; wide_box] 2 30 (solid 1) (solid 1) frame' frame_v' true
           (fun _ => 100%Q) (fun _ => 200%Q) warm_processor warm_processor
           vp' vp_v' records labels eq_refl Hrun Hvideo).
Defined.

End Runs.

End ProcessorFacts.

